(** * Network Journal: the advanced note processor

    A shallow embedding of [backend/ai_service/note_processor.py] (class
    [AdvancedNoteProcessorService]) together with the Neo4j graph-store
    adapter functions of [backend/graph_service/*.py] that it calls.

    - Python dictionaries that are mutated in place (the resolution map and
      the resolution records it holds) are association lists keyed by the
      entity name, updated by key, so that a mutation through one alias is
      seen through every other one.
    - The graph store is an explicit state: a list of labelled nodes, a list
      of edges, a counter standing for [uuid4], and a log of every store call.
      A store call may raise (a Neo4j error): the store carries a predicate
      [fault] telling which calls raise.
    - The two LLM chains are opaque functions of the service object; [None]
      when no API key was configured, as in [__init__]. *)

From Stdlib Require Import String Ascii List Bool Arith Lia QArith ZArith.
From Stdlib Require Import DecimalString Sorting.Permutation Sorting.Sorted.
Import ListNotations.
Open Scope nat_scope.
Open Scope string_scope.

(** ** Python values and dictionaries *)

Inductive PyVal :=
| VNone
| VInt (z : Z)
| VStr (s : string)
| VTime (t : string).

(** A [Dict[str, Any]], in insertion order. *)
Definition Props := list (string * PyVal).

(** [d.get(k, default)] *)
Fixpoint props_get (k : string) (default : PyVal) (d : Props) : PyVal :=
  match d with
  | [] => default
  | (k', v) :: d' => if String.eqb k k' then v else props_get k default d'
  end.

(** [d[k] = v]: update in place when the key is present, append otherwise. *)
Fixpoint props_set (k : string) (v : PyVal) (d : Props) : Props :=
  match d with
  | [] => [(k, v)]
  | (k', v') :: d' =>
      if String.eqb k k' then (k', v) :: d' else (k', v') :: props_set k v d'
  end.

(** Python truthiness of an [Optional[str]]: [None] and [""] are false. *)
Definition truthy (o : option string) : bool :=
  match o with
  | Some s => negb (String.eqb s "")
  | None => false
  end.

(** [str.lower()] on ASCII text. *)
Definition lower_ascii (c : ascii) : ascii :=
  let n := nat_of_ascii c in
  if (65 <=? n)%nat && (n <=? 90)%nat then ascii_of_nat (n + 32)%nat else c.

Fixpoint lower (s : string) : string :=
  match s with
  | EmptyString => EmptyString
  | String c s' => String (lower_ascii c) (lower s')
  end.

(** [len(s)] and the [min_length]/[max_length] constraint of a pydantic
    string field. *)
Definition valid_len (lo hi : nat) (s : string) : bool :=
  (lo <=? String.length s)%nat && (String.length s <=? hi)%nat.

(** ** Exceptions that can be raised *)

Inductive Exn :=
| ConfigError                 (* "AI service is not configured" *)
| StoreError                  (* any Neo4j failure *)
| ValidationError             (* a pydantic model rejecting its fields *)
| AttributeError (attr : string).

Inductive Res (A : Type) :=
| Ok (a : A)
| Err (e : Exn).
Arguments Ok {A} a.
Arguments Err {A} e.

(** ** The graph store ([backend/graph_service]) *)

Record Node := mkNode {
  n_id : string;
  n_name : string;               (* [name], or [city] for a Location *)
  n_email : option string
}.

Record Edge := mkEdge {
  e_label : string;
  e_from : string;
  e_to : string;
  e_attrs : Props
}.

(** Every call the note processor makes into the store. *)
Inductive Call :=
| CGetByName (label name : string)
| CSearchPeople (query : string)
| CCreate (label name : string)
| CLink (label from to : string).

Record Store := mkStore {
  nodes : list (string * Node);   (* node label, node *)
  edges : list Edge;
  next_uuid : nat;                (* the source of [str(uuid4())] *)
  clock : string;                 (* [datetime.now(UTC)] *)
  log : list Call;                (* most recent call first *)
  fault : Call -> bool            (* the calls that raise *)
}.

Definition uuid_of (n : nat) : string :=
  "uuid-" ++ NilZero.string_of_uint (Nat.to_uint n).

Definition store_log (c : Call) (s : Store) : Store :=
  mkStore (nodes s) (edges s) (next_uuid s) (clock s) (c :: log s) (fault s).

Definition with_nodes (ns : list (string * Node)) (s : Store) : Store :=
  mkStore ns (edges s) (next_uuid s) (clock s) (log s) (fault s).

Definition with_edges (es : list Edge) (s : Store) : Store :=
  mkStore (nodes s) es (next_uuid s) (clock s) (log s) (fault s).

Definition bump_uuid (s : Store) : Store :=
  mkStore (nodes s) (edges s) (S (next_uuid s)) (clock s) (log s) (fault s).

(** [MATCH (x:Label {name: $name}) RETURN x] followed by [result.single()]. *)
Fixpoint find_by_name (label name : string) (ns : list (string * Node))
  : option Node :=
  match ns with
  | [] => None
  | (l, n) :: ns' =>
      if String.eqb l label && String.eqb (n_name n) name then Some n
      else find_by_name label name ns'
  end.

Definition node_exists (label id : string) (ns : list (string * Node)) : bool :=
  existsb (fun ln => String.eqb (fst ln) label && String.eqb (n_id (snd ln)) id) ns.

(** Cypher [a CONTAINS b]; [CONTAINS] on a null property is not true. *)
Definition contains (a b : string) : bool :=
  match String.index 0 b a with Some _ => true | None => false end.

Definition contains_opt (a : option string) (b : string) : bool :=
  match a with Some a => contains a b | None => false end.

(** The [ORDER BY CASE ... END, p.name] key of [search_people]. *)
Definition search_rank (q : string) (n : Node) : nat :=
  if String.eqb (n_name n) q then 1%nat
  else if String.prefix q (n_name n) then 2%nat else 3%nat.

Definition search_le (q : string) (a b : Node) : bool :=
  let ra := search_rank q a in
  let rb := search_rank q b in
  (ra <? rb)%nat || ((ra =? rb)%nat && String.leb (n_name a) (n_name b)).

Fixpoint insert_sorted (le : Node -> Node -> bool) (x : Node) (l : list Node)
  : list Node :=
  match l with
  | [] => [x]
  | y :: l' => if le x y then x :: y :: l' else y :: insert_sorted le x l'
  end.

Definition sort_nodes (le : Node -> Node -> bool) (l : list Node) : list Node :=
  fold_right (insert_sorted le) [] l.

Definition search_matches (q : string) (ns : list (string * Node)) : list Node :=
  sort_nodes (search_le q)
    (map snd (filter (fun ln => String.eqb (fst ln) "Person" &&
                               (contains (n_name (snd ln)) q
                                || contains_opt (n_email (snd ln)) q)) ns)).

(** [MERGE (a)-[r:LABEL]->(b) SET r.k = v, ...] *)
Fixpoint merge_edge (label a b : string) (sets : Props) (es : list Edge)
  : list Edge :=
  match es with
  | [] => [mkEdge label a b sets]
  | e :: es' =>
      if String.eqb (e_label e) label && String.eqb (e_from e) a
         && String.eqb (e_to e) b
      then mkEdge label a b (fold_left (fun d kv => props_set (fst kv) (snd kv) d)
                                       sets (e_attrs e)) :: es'
      else e :: merge_edge label a b sets es'
  end.

(** ** The extraction data model ([note_processor.py], pydantic models) *)

Record EntityMention := mkEntityMention {
  em_name : string;
  em_entity_type : string;   (* "person" | "company" | "topic" | "event" | "location" | ... *)
  em_confidence : Q;
  em_context : string;
  em_properties : Props
}.

Record RelationshipMention := mkRelationshipMention {
  rm_from_entity : string;
  rm_to_entity : string;
  rm_relationship_type : string;
  rm_strength : option Z;
  rm_context : string;
  rm_properties : Props
}.

Record NoteAnalysis := mkNoteAnalysis {
  na_entities : list EntityMention;
  na_relationships : list RelationshipMention;
  na_main_person_context : option string;
  na_ambiguous_entities : list string;
  na_confidence_score : Q
}.

Record DisambiguationResult := mkDisambiguationResult {
  dr_entity_name : string;
  dr_candidates : list Props;
  dr_suggested_action : string;
  dr_selected_candidate_id : option string;
  dr_confidence : Q;
  dr_reasoning : string
}.

(** What an LLM chain hands back: the [JsonOutputParser] dictionary, whose
    keys may be missing, or an already-built model. *)
Inductive RawAnalysis :=
| RawAnalysisDict (entities : option (list EntityMention))
                  (relationships : option (list RelationshipMention))
                  (main_person_context : option string)
                  (ambiguous_entities : option (list string))
                  (confidence_score : option Q)
| RawAnalysisModel (a : NoteAnalysis).

Inductive RawDisambiguation :=
| RawDisambiguationDict (entity_name : option string)
                        (candidates : option (list Props))
                        (suggested_action : option string)
                        (selected_candidate_id : option (option string))
                        (confidence : option Q)
                        (reasoning : option string)
| RawDisambiguationModel (d : DisambiguationResult).

Definition default_Q (d : Q) (o : option Q) : Q :=
  match o with Some q => q | None => d end.

(** [NoteAnalysis] applied to the keyword arguments of [raw]: [entities] and [relationships] are required, the
    other fields have defaults. *)
Definition NoteAnalysis_of_dict (ents : option (list EntityMention))
    (rels : option (list RelationshipMention)) (ctx : option string)
    (amb : option (list string)) (score : option Q) : option NoteAnalysis :=
  match ents, rels with
  | Some es, Some rs =>
      Some (mkNoteAnalysis es rs ctx
              (match amb with Some a => a | None => [] end)
              (default_Q (8 # 10) score))
  | _, _ => None
  end.

(** [DisambiguationResult] applied to the keyword arguments of [raw]: [entity_name], [candidates],
    [suggested_action] and [reasoning] are required. *)
Definition DisambiguationResult_of_dict (name : option string)
    (cands : option (list Props)) (act : option string)
    (sel : option (option string)) (conf : option Q) (why : option string)
  : option DisambiguationResult :=
  match name, cands, act, why with
  | Some n, Some c, Some a, Some w =>
      Some (mkDisambiguationResult n c a
              (match sel with Some s => s | None => None end)
              (default_Q (8 # 10) conf) w)
  | _, _, _, _ => None
  end.

(** An entity resolution: the dictionary
    [{"action", "entity", "existing_id", "confidence", "reasoning"}]. *)
Record Resolution := mkResolution {
  r_action : string;
  r_entity : EntityMention;
  r_existing_id : option string;
  r_confidence : option Q;
  r_reasoning : option string
}.

Definition set_created (id : string) (r : Resolution) : Resolution :=
  mkResolution "created" (r_entity r) (Some id) (r_confidence r) (r_reasoning r).

(** The resolution map [resolved_entities : Dict[str, Any]]. *)
Definition ResMap := list (string * Resolution).

Fixpoint dict_get (k : string) (m : ResMap) : option Resolution :=
  match m with
  | [] => None
  | (k', v) :: m' => if String.eqb k k' then Some v else dict_get k m'
  end.

Fixpoint dict_set (k : string) (v : Resolution) (m : ResMap) : ResMap :=
  match m with
  | [] => [(k, v)]
  | (k', v') :: m' =>
      if String.eqb k k' then (k', v) :: m' else (k', v') :: dict_set k v m'
  end.

Record ValidatedRelationship := mkValidated {
  v_from_entity : string;
  v_to_entity : string;
  v_from_id : string;
  v_to_id : string;
  v_relationship_type : string;
  v_strength : option Z;
  v_properties : Props;
  v_context : string
}.

(** ** The service object and the world it runs in *)

Record Service := mkService {
  main_person_name : string;
  main_person_id : option string;
  (* [self.extraction_chain]: (main_person_name, note_text) -> raw answer *)
  extraction_chain : option (string -> string -> RawAnalysis);
  (* [self.disambiguation_chain]: (entity_name, context, candidates) -> raw *)
  disambiguation_chain : option (string -> string -> list Node -> RawDisambiguation)
}.

Definition with_main_person (name : string) (id : option string) (s : Service)
  : Service :=
  mkService name id (extraction_chain s) (disambiguation_chain s).

Record World := mkWorld {
  store : Store;
  svc : Service
}.

(** The state-and-exception monad of a Python method body: the world is
    threaded through, and an exception keeps the effects already done. *)
Definition M (A : Type) := World -> Res A * World.

Definition ret {A} (a : A) : M A := fun w => (Ok a, w).
Definition raise {A} (e : Exn) : M A := fun w => (Err e, w).
Definition bind {A B} (m : M A) (f : A -> M B) : M B :=
  fun w => match m w with
           | (Ok a, w') => f a w'
           | (Err e, w') => (Err e, w')
           end.
Definition get_world : M World := fun w => (Ok w, w).
Definition put_world (w : World) : M unit := fun _ => (Ok tt, w).
(** [try: m except Exception: h] *)
Definition try_except {A} (m : M A) (h : Exn -> M A) : M A :=
  fun w => match m w with
           | (Ok a, w') => (Ok a, w')
           | (Err e, w') => h e w'
           end.

Notation "x <- m ;; k" := (bind m (fun x => k))
  (at level 61, m at next level, right associativity).
Notation "m ;;; k" := (bind m (fun _ => k))
  (at level 61, right associativity).

Definition get_svc : M Service := fun w => (Ok (svc w), w).
Definition put_svc (s : Service) : M unit :=
  fun w => (Ok tt, mkWorld (store w) s).

(** One store call: logged, then either raising or running its query. *)
Definition store_call {A} (c : Call) (q : Store -> A * Store) : M A :=
  fun w =>
    let s := store_log c (store w) in
    if fault s c then (Err StoreError, mkWorld s (svc w))
    else let '(a, s') := q s in (Ok a, mkWorld s' (svc w)).

(** [get_person_by_name], [get_company_by_name], [get_topic_by_name],
    [get_event_by_name], [get_location_by_city] *)
Definition get_by_name (label name : string) : M (option Node) :=
  store_call (CGetByName label name) (fun s => (find_by_name label name (nodes s), s)).

Definition get_person_by_name := get_by_name "Person".
Definition get_company_by_name := get_by_name "Company".
Definition get_topic_by_name := get_by_name "Topic".
Definition get_event_by_name := get_by_name "Event".
Definition get_location_by_city := get_by_name "Location".

Definition search_people (query : string) : M (list Node) :=
  store_call (CSearchPeople query) (fun s => (search_matches query (nodes s), s)).

(** [create_person], [create_company], ...: a fresh [uuid4] id, a [CREATE]
    of the node, the node returned. *)
Definition create_node (label name : string) : M Node :=
  store_call (CCreate label name)
    (fun s => let n := mkNode (uuid_of (next_uuid s)) name None in
              (n, bump_uuid (with_nodes (nodes s ++ [(label, n)]) s))).

(** The [link_*] functions and [create_person_relationship]:
    [MATCH (a:A {id}) MATCH (b:B {id}) MERGE (a)-[r:LABEL]->(b) SET ...]. *)
Definition link (label la lb a b : string) (sets : Props) : M bool :=
  store_call (CLink label a b)
    (fun s => if node_exists la a (nodes s) && node_exists lb b (nodes s)
              then (true, with_edges (merge_edge label a b sets (edges s)) s)
              else (false, s)).

Definition link_person_to_company (person_id company_id : string) (role : PyVal)
    (start_date : PyVal) : M bool :=
  s <- get_world ;;
  link "WORKS_AT" "Person" "Company" person_id company_id
    [("role", role); ("start_date", start_date); ("end_date", VNone);
     ("created_at", VTime (clock (store s)))].

(** [create_person_relationship(from_person_id, to_person_id,
    relationship_type, strength)]: [SET r.type = $relationship_type,
    r.strength = $strength]. *)
Definition create_person_relationship (from_person_id to_person_id : string)
    (relationship_type strength : PyVal) : M bool :=
  s <- get_world ;;
  link "KNOWS" "Person" "Person" from_person_id to_person_id
    [("type", relationship_type); ("strength", strength);
     ("created_at", VTime (clock (store s)))].

Definition link_person_to_topic (person_id topic_id : string) : M bool :=
  link "INTERESTED_IN" "Person" "Topic" person_id topic_id [].

Definition link_person_to_event (person_id event_id : string) : M bool :=
  link "ATTENDED" "Person" "Event" person_id event_id [].

(** ** [AdvancedNoteProcessorService] *)

(** The attributes defined in the body of the class. *)
Definition AdvancedNoteProcessorService_attributes : list string :=
  ["__init__"; "process_note_advanced"; "_ensure_main_person_exists";
   "_resolve_ambiguous_entities"; "_resolve_person_entity";
   "_resolve_company_entity"; "_resolve_topic_entity"; "_resolve_event_entity";
   "_resolve_location_entity"; "_validate_relationships";
   "_ensure_entity_exists"; "_create_entity_and_update_resolution";
   "_create_graph_entities"; "set_main_person"; "get_main_person_id"].

Definition has_attribute (name : string) : bool :=
  existsb (String.eqb name) AdvancedNoteProcessorService_attributes.

(** [self._create_fallback_analysis(note_text, raw_analysis)] and
    [self._create_fallback_disambiguation(entity.name, similar_people)]: the
    class defines neither method (see [has_attribute]) and nothing else in
    the repository adds them, so the attribute lookup raises. *)
Definition create_fallback_analysis : M NoteAnalysis :=
  raise (AttributeError "_create_fallback_analysis").

Definition create_fallback_disambiguation : M DisambiguationResult :=
  raise (AttributeError "_create_fallback_disambiguation").

(** [_ensure_main_person_exists] *)
Definition ensure_main_person_exists : M unit :=
  sv <- get_svc ;;
  if truthy (main_person_id sv) then ret tt else
  existing_person <- get_person_by_name (main_person_name sv) ;;
  match existing_person with
  | Some p => put_svc (with_main_person (main_person_name sv) (Some (n_id p)) sv)
  | None =>
      similar_people <- search_people (main_person_name sv) ;;
      match similar_people with
      | p :: _ =>
          (* use the first match and adopt its stored name *)
          put_svc (with_main_person (n_name p) (Some (n_id p)) sv)
      | [] =>
          if valid_len 1 200 (main_person_name sv) then
            created_person <- create_node "Person" (main_person_name sv) ;;
            put_svc (with_main_person (main_person_name sv)
                       (Some (n_id created_person)) sv)
          else raise ValidationError
      end
  end.

(** [set_main_person] *)
Definition set_main_person (person_name : string) (person_id : option string)
  : M unit :=
  sv <- get_svc ;;
  put_svc (with_main_person person_name person_id sv).

Definition conf1 : Q := 1.
Definition conf09 : Q := 9 # 10.
Definition conf08 : Q := 8 # 10.

(** [_resolve_person_entity] *)
Definition resolve_person_entity (entity : EntityMention) (note_text : string)
  : M Resolution :=
  sv <- get_svc ;;
  if String.eqb (lower (em_name entity)) (lower (main_person_name sv)) then
    ret (mkResolution "use_existing" entity (main_person_id sv) (Some conf1) None)
  else
  existing_person <- get_person_by_name (em_name entity) ;;
  match existing_person with
  | Some p => ret (mkResolution "use_existing" entity (Some (n_id p)) (Some conf1) None)
  | None =>
      similar_people <- search_people (em_name entity) ;;
      match similar_people with
      | [] => ret (mkResolution "create_new" entity None (Some conf09) None)
      | [p] => ret (mkResolution "use_existing" entity (Some (n_id p)) (Some conf08) None)
      | _ =>
          match disambiguation_chain sv with
          | None => raise (AttributeError "ainvoke")   (* [None.ainvoke] *)
          | Some chain =>
              disambiguation <-
                match chain (em_name entity) note_text similar_people with
                | RawDisambiguationDict n c a s cf w =>
                    match DisambiguationResult_of_dict n c a s cf w with
                    | Some d => ret d
                    | None => create_fallback_disambiguation
                    end
                | RawDisambiguationModel d => ret d
                end ;;
              ret (mkResolution (dr_suggested_action disambiguation) entity
                     (dr_selected_candidate_id disambiguation)
                     (Some (dr_confidence disambiguation))
                     (Some (dr_reasoning disambiguation)))
          end
      end
  end.

(** [_resolve_company_entity], [_resolve_topic_entity],
    [_resolve_event_entity], [_resolve_location_entity]: exact match or
    create. *)
Definition resolve_exact (get : string -> M (option Node)) (entity : EntityMention)
  : M Resolution :=
  existing <- get (em_name entity) ;;
  match existing with
  | Some n => ret (mkResolution "use_existing" entity (Some (n_id n)) (Some conf1) None)
  | None => ret (mkResolution "create_new" entity None (Some conf09) None)
  end.

Definition resolve_company_entity := resolve_exact get_company_by_name.
Definition resolve_topic_entity := resolve_exact get_topic_by_name.
Definition resolve_event_entity := resolve_exact get_event_by_name.
Definition resolve_location_entity := resolve_exact get_location_by_city.

(** The [if/elif] dispatch on [entity.entity_type] of
    [_resolve_ambiguous_entities]. *)
Definition resolve_entity (entity : EntityMention) (note_text : string)
  : M Resolution :=
  let t := em_entity_type entity in
  if String.eqb t "person" then resolve_person_entity entity note_text
  else if String.eqb t "company" then resolve_company_entity entity
  else if String.eqb t "topic" then resolve_topic_entity entity
  else if String.eqb t "event" then resolve_event_entity entity
  else if String.eqb t "location" then resolve_location_entity entity
  else ret (mkResolution "create_new" entity None None None).

(** The pinned resolution of the main person. *)
Definition main_person_resolution (sv : Service) : Resolution :=
  mkResolution "use_existing"
    (mkEntityMention (main_person_name sv) "person" conf1
       "Main person in the network" [])
    (main_person_id sv) (Some conf1) None.

(** [for entity in entities: ... resolved[entity.name] = resolution] *)
Fixpoint resolve_each (entities : list EntityMention) (note_text : string)
    (resolved : ResMap) : M ResMap :=
  match entities with
  | [] => ret resolved
  | entity :: rest =>
      resolution <- resolve_entity entity note_text ;;
      resolve_each rest note_text (dict_set (em_name entity) resolution resolved)
  end.

(** [_resolve_ambiguous_entities] *)
Definition resolve_ambiguous_entities (entities : list EntityMention)
    (note_text : string) : M ResMap :=
  sv <- get_svc ;;
  resolve_each entities note_text [(main_person_name sv, main_person_resolution sv)].

(** The node label of each known entity type, with the length bounds of the
    pydantic field that carries the name ([Person.name], [Company.name],
    [Topic.name], [Event.name], [Location.city]). *)
Definition label_of_type (t : string) : option (string * nat * nat) :=
  if String.eqb t "person" then Some ("Person", 1, 200)
  else if String.eqb t "company" then Some ("Company", 1, 200)
  else if String.eqb t "topic" then Some ("Topic", 1, 100)
  else if String.eqb t "event" then Some ("Event", 1, 200)
  else if String.eqb t "location" then Some ("Location", 1, 100)
  else None.

(** [_create_entity_and_update_resolution(entity, entity_resolution, ...)]:
    the resolution object is the value stored at [key] in the map. *)
Definition create_entity_and_update_resolution (key : string) (r : Resolution)
    (resolved : ResMap) : M (option string * ResMap) :=
  let entity := r_entity r in
  try_except
    (match label_of_type (em_entity_type entity) with
     | None => ret (None, resolved)              (* "Unknown entity type" *)
     | Some (label, lo, hi) =>
         if valid_len lo hi (em_name entity) then
           created_entity <- create_node label (em_name entity) ;;
           ret (Some (n_id created_entity),
                dict_set key (set_created (n_id created_entity) r) resolved)
         else raise ValidationError
     end)
    (fun _ => ret (None, resolved)).

(** [_ensure_entity_exists(entity_resolution, resolved_entities)] for the
    resolution stored at [key]. *)
Definition ensure_entity_exists (key : string) (resolved : ResMap)
  : M (option string * ResMap) :=
  match dict_get key resolved with
  | None => ret (None, resolved)
  | Some r =>
      let entity := r_entity r in
      if String.eqb (r_action r) "use_existing" then
        if truthy (r_existing_id r) then
          actual_entity <-
            match label_of_type (em_entity_type entity) with
            | Some (label, _, _) => get_by_name label (em_name entity)
            | None => ret None
            end ;;
          match actual_entity with
          | Some n => ret (Some (n_id n), resolved)
          | None => create_entity_and_update_resolution key r resolved
          end
        else create_entity_and_update_resolution key r resolved
      else if String.eqb (r_action r) "create_new" then
        if truthy (r_existing_id r) then ret (r_existing_id r, resolved)
        else create_entity_and_update_resolution key r resolved
      else ret (None, resolved)
  end.

(** The first loop of [_validate_relationships]: every [create_new]
    resolution without an id is created. [keys] are the map's keys, in
    order. *)
Fixpoint prematerialize (keys : list string) (resolved : ResMap) : M ResMap :=
  match keys with
  | [] => ret resolved
  | k :: ks =>
      match dict_get k resolved with
      | Some r =>
          if String.eqb (r_action r) "create_new" && negb (truthy (r_existing_id r))
          then p <- ensure_entity_exists k resolved ;; prematerialize ks (snd p)
          else prematerialize ks resolved
      | None => prematerialize ks resolved
      end
  end.

(** The second loop of [_validate_relationships]. *)
Fixpoint validate_each (relationships : list RelationshipMention)
    (resolved : ResMap) : M (list ValidatedRelationship * ResMap) :=
  match relationships with
  | [] => ret ([], resolved)
  | rel :: rest =>
      match dict_get (rm_from_entity rel) resolved,
            dict_get (rm_to_entity rel) resolved with
      | Some _, Some _ =>
          p1 <- ensure_entity_exists (rm_from_entity rel) resolved ;;
          p2 <- ensure_entity_exists (rm_to_entity rel) (snd p1) ;;
          let skip := validate_each rest (snd p2) in
          match fst p1, fst p2 with
          | Some from_id, Some to_id =>
              if truthy (Some from_id) && truthy (Some to_id) then
                q <- validate_each rest (snd p2) ;;
                ret (mkValidated (rm_from_entity rel) (rm_to_entity rel)
                       from_id to_id (rm_relationship_type rel) (rm_strength rel)
                       (rm_properties rel) (rm_context rel) :: fst q, snd q)
              else skip
          | _, _ => skip
          end
      | _, _ => validate_each rest resolved     (* "entities not resolved" *)
      end
  end.

(** [_validate_relationships] *)
Definition validate_relationships (relationships : list RelationshipMention)
    (resolved : ResMap) : M (list ValidatedRelationship * ResMap) :=
  resolved' <- prematerialize (map fst resolved) resolved ;;
  validate_each relationships resolved'.

(** ** [_create_graph_entities] *)

Record ReportEntry := mkReportEntry {
  re_name : string;
  re_id : option string;
  re_action : string
}.

Record RelReportEntry := mkRelReportEntry {
  rr_from : string;
  rr_to : string;
  rr_type : string;
  rr_action : string
}.

Record CreatedEntities := mkCreatedEntities {
  ce_people : list ReportEntry;
  ce_companies : list ReportEntry;
  ce_topics : list ReportEntry;
  ce_events : list ReportEntry;
  ce_locations : list ReportEntry;
  ce_relationships : list RelReportEntry
}.

Definition empty_created : CreatedEntities := mkCreatedEntities [] [] [] [] [] [].

(** [created_entities[bucket].append(entry)] for the entity type [t]. *)
Definition report_entity (t : string) (x : ReportEntry) (c : CreatedEntities)
  : CreatedEntities :=
  let '(mkCreatedEntities pe co to ev lo re) := c in
  if String.eqb t "person" then mkCreatedEntities (pe ++ [x]) co to ev lo re
  else if String.eqb t "company" then mkCreatedEntities pe (co ++ [x]) to ev lo re
  else if String.eqb t "topic" then mkCreatedEntities pe co (to ++ [x]) ev lo re
  else if String.eqb t "event" then mkCreatedEntities pe co to (ev ++ [x]) lo re
  else if String.eqb t "location" then mkCreatedEntities pe co to ev (lo ++ [x]) re
  else c.

Definition report_relationship (x : RelReportEntry) (c : CreatedEntities)
  : CreatedEntities :=
  let '(mkCreatedEntities pe co to ev lo re) := c in
  mkCreatedEntities pe co to ev lo (re ++ [x]).

(** The first loop: every resolution is logged, created or existing. *)
Fixpoint report_entities (resolved : ResMap) (c : CreatedEntities)
  : CreatedEntities :=
  match resolved with
  | [] => c
  | (_, resolution) :: rest =>
      let entity := r_entity resolution in
      report_entities rest
        (report_entity (em_entity_type entity)
           (mkReportEntry (em_name entity) (r_existing_id resolution)
              (r_action resolution)) c)
  end.

(** [rel.get("strength", 3)] on the validated dictionary, which always
    carries the key ["strength"] (set from [rel.strength]). *)
Definition validated_get_strength (rel : ValidatedRelationship) (default : PyVal)
  : PyVal :=
  match v_strength rel with Some z => VInt z | None => VNone end.

(** The store call of one validated relationship, by [relationship_type]. *)
Definition link_relationship (rel : ValidatedRelationship) : M unit :=
  let from_id := v_from_id rel in
  let to_id := v_to_id rel in
  let t := v_relationship_type rel in
  if String.eqb t "WORKS_AT" then
    w <- get_world ;;
    link_person_to_company from_id to_id
      (props_get "role" (VStr "Unknown") (v_properties rel))
      (VTime (clock (store w))) ;;; ret tt
  else if String.eqb t "KNOWS" then
    create_person_relationship from_id to_id
      (validated_get_strength rel (VInt 3))
      (props_get "type" (VStr "acquaintance") (v_properties rel)) ;;; ret tt
  else if String.eqb t "INTERESTED_IN" then
    link_person_to_topic from_id to_id ;;; ret tt
  else if String.eqb t "ATTENDED" then
    link_person_to_event from_id to_id ;;; ret tt
  else ret tt.

(** The second loop: each relationship in its own [try]. *)
Fixpoint commit_each (rels : list ValidatedRelationship) (c : CreatedEntities)
  : M CreatedEntities :=
  match rels with
  | [] => ret c
  | rel :: rest =>
      c' <- try_except
              (link_relationship rel ;;;
               ret (report_relationship
                      (mkRelReportEntry (v_from_entity rel) (v_to_entity rel)
                         (v_relationship_type rel) "created") c))
              (fun _ => ret c) ;;
      commit_each rest c'
  end.

Definition create_graph_entities (resolved : ResMap)
    (validated_relationships : list ValidatedRelationship) : M CreatedEntities :=
  commit_each validated_relationships (report_entities resolved empty_created).

(** ** [process_note_advanced] *)

Record ProcessResult := mkProcessResult {
  pr_analysis : NoteAnalysis;
  pr_resolved_entities : ResMap;
  pr_validated_relationships : list ValidatedRelationship;
  pr_created_entities : CreatedEntities;
  pr_main_person_id : option string
}.

Definition parse_analysis (raw : RawAnalysis) : M NoteAnalysis :=
  match raw with
  | RawAnalysisDict es rs ctx amb sc =>
      match NoteAnalysis_of_dict es rs ctx amb sc with
      | Some a => ret a
      | None => create_fallback_analysis
      end
  | RawAnalysisModel a => ret a
  end.

(** Stages 2 to 4 of [process_note_advanced]: resolution, validation and
    commit.  The map returned is the one the validation stage mutated. *)
Definition resolve_validate_commit (entities : list EntityMention)
    (relationships : list RelationshipMention) (note_text : string)
  : M (ResMap * list ValidatedRelationship * CreatedEntities) :=
  resolved_entities <- resolve_ambiguous_entities entities note_text ;;
  vr <- validate_relationships relationships resolved_entities ;;
  created_entities <- create_graph_entities (snd vr) (fst vr) ;;
  ret (snd vr, fst vr, created_entities).

Definition process_note_advanced (note_text : string) : M ProcessResult :=
  try_except
    (sv <- get_svc ;;
     match extraction_chain sv with
     | None => raise ConfigError
     | Some chain =>
         ensure_main_person_exists ;;;
         sv' <- get_svc ;;
         analysis <- parse_analysis (chain (main_person_name sv') note_text) ;;
         stages <- resolve_validate_commit (na_entities analysis)
                     (na_relationships analysis) note_text ;;
         let '(resolved_entities, validated_relationships, created_entities) := stages in
         sv'' <- get_svc ;;
         ret (mkProcessResult analysis resolved_entities validated_relationships
                created_entities (main_person_id sv''))
     end)
    (fun e => raise e).                                  (* [raise] *)

(** ** Concrete worlds used by the examples below *)

Definition no_fault : Call -> bool := fun _ => false.
Definition all_fault : Call -> bool := fun _ => true.

Definition fx_store (ns : list (string * Node)) (f : Call -> bool) : Store :=
  mkStore ns [] 0 "2026-01-01T00:00:00+00:00" [] f.

Definition fx_person (id name : string) : string * Node :=
  ("Person", mkNode id name None).

Definition fx_entity (name t : string) : EntityMention :=
  mkEntityMention name t 1 "" [].

Definition fx_rel (a b t : string) (strength : option Z) (props : Props)
  : RelationshipMention :=
  mkRelationshipMention a b t strength "" props.

(** An extraction chain that always answers the same model. *)
Definition fx_chain (a : NoteAnalysis) : string -> string -> RawAnalysis :=
  fun _ _ => RawAnalysisModel a.

Definition fx_service (name : string) (id : option string)
    (chain : option (string -> string -> RawAnalysis)) : Service :=
  mkService name id chain
    (Some (fun _ _ _ => RawDisambiguationDict None None None None None None)).

(** The names of the Person nodes of a store. *)
Definition person_names (s : Store) : list string :=
  map (fun ln => n_name (snd ln)) (filter (fun ln => String.eqb (fst ln) "Person") (nodes s)).

(** The number of [create] calls for [name] in a call log. *)
Definition creates_of (name : string) (l : list Call) : nat :=
  length (filter (fun c => match c with CCreate _ n => String.eqb n name | _ => false end) l).

Definition lookups_of (name : string) (l : list Call) : nat :=
  length (filter (fun c => match c with CGetByName _ n => String.eqb n name | _ => false end) l).

Definition outcome {A} (r : Res A * World) : option A :=
  match fst r with Ok a => Some a | Err _ => None end.

Definition error_of {A} (r : Res A * World) : option Exn :=
  match fst r with Ok _ => None | Err e => Some e end.

Definition fx_alice_bob : World :=
  mkWorld (fx_store [fx_person "p1" "Alice"; fx_person "p2" "Bob"] no_fault)
          (fx_service "Alice" (Some "p1") None).

Definition fx_alice_lower : World :=
  mkWorld (fx_store [fx_person "p1" "Alice"] no_fault)
    (fx_service "Alice" None
       (Some (fx_chain (mkNoteAnalysis
                [fx_entity "alice" "person"; fx_entity "Bob" "person"]
                [fx_rel "alice" "Bob" "KNOWS" None []] None [] 1)))).

(** ** Predicates used in the statements below *)

Open Scope list_scope.

(** A store call other than a creation. *)
Definition not_create (c : Call) : Prop :=
  match c with CCreate _ _ => False | _ => True end.

(** The footprint of a computation: it leaves the service object and the
    fault predicate alone and only appends calls satisfying [P] to the log. *)
Definition footprint {A} (P : Call -> Prop) (m : M A) : Prop :=
  forall w,
    svc (snd (m w)) = svc w /\ fault (store (snd (m w))) = fault (store w) /\
    exists new, log (store (snd (m w))) = new ++ log (store w) /\ Forall P new.

Definition action_of (k : string) (m : ResMap) : option string :=
  option_map r_action (dict_get k m).

(** Every value of the map is the resolution of an entity of that name. *)
Definition well_keyed (m : ResMap) : Prop :=
  forall k r, dict_get k m = Some r -> em_name (r_entity r) = k.

(** No creation raises in the store. *)
Definition creates_succeed (s : Store) : Prop :=
  forall l n, fault s (CCreate l n) = false.

(** The report entries of the resolutions of entity type [t], in map order. *)
Definition entries_of (t : string) (m : ResMap) : list ReportEntry :=
  map (fun kr => mkReportEntry (em_name (r_entity (snd kr))) (r_existing_id (snd kr))
                   (r_action (snd kr)))
      (filter (fun kr => String.eqb (em_entity_type (r_entity (snd kr))) t) m).

Definition known_relationship_type (t : string) : bool :=
  String.eqb t "WORKS_AT" || String.eqb t "KNOWS" || String.eqb t "INTERESTED_IN"
  || String.eqb t "ATTENDED".

(** The value of a successful result, or [d]. *)
Definition ok_or {A} (d : A) (r : Res A) : A :=
  match r with Ok a => a | Err _ => d end.

Definition fx_unconfigured : World :=
  mkWorld (fx_store [fx_person "p1" "Alice"] no_fault) (fx_service "Alice" None None).

Definition fx_store_down : World :=
  mkWorld (fx_store [fx_person "p1" "Alice"] all_fault)
    (fx_service "Alice" None
       (Some (fx_chain (mkNoteAnalysis [fx_entity "Bob" "person"] [] None [] 1)))).

Definition fx_unknown_rel : ValidatedRelationship :=
  mkValidated "Alice" "Bob" "p1" "p2" "MENTORS" (Some 2%Z) [] "".

(** The report bucket of an entity type. *)
Definition bucket (t : string) (c : CreatedEntities) : list ReportEntry :=
  if String.eqb t "person" then ce_people c
  else if String.eqb t "company" then ce_companies c
  else if String.eqb t "topic" then ce_topics c
  else if String.eqb t "event" then ce_events c
  else if String.eqb t "location" then ce_locations c
  else [].

Definition known_entity_types : list string :=
  ["person"; "company"; "topic"; "event"; "location"].

Definition fx_vehicle_map : ResMap :=
  [("Car", mkResolution "create_new" (fx_entity "Car" "vehicle") None None None)].

(** A store where "Alice" is only found by the fuzzy search. *)
Definition fx_fuzzy_alice : World :=
  mkWorld (fx_store [fx_person "p7" "Alice Smith"] no_fault)
    (fx_service "Alice" None None).

Definition fx_map_ab : ResMap :=
  [("Alice", mkResolution "use_existing" (fx_entity "Alice" "person") (Some "p1") (Some conf1) None);
   ("Bob", mkResolution "use_existing" (fx_entity "Bob" "person") (Some "p2") (Some conf1) None)].

Definition fx_rels_ab : list RelationshipMention :=
  [fx_rel "Alice" "Bob" "KNOWS" (Some 3%Z) []; fx_rel "Alice" "Ghost" "KNOWS" None []].

(** A store in which every creation raises. *)
Definition create_fault : Call -> bool :=
  fun c => match c with CCreate _ _ => true | _ => false end.

Definition fx_stale_zoe : ResMap :=
  [("Zoe", mkResolution "use_existing" (fx_entity "Zoe" "person") (Some "p9") (Some conf1) None)].

Definition fx_stale_empty : ResMap :=
  [("", mkResolution "use_existing" (fx_entity "" "person") (Some "p1") (Some conf08) None)].

(** The create budget of a run started on a log [log0]: creations never
    raise, the map is keyed by entity names, and every name has been created
    at most once since [log0], in which case its resolution says "created". *)
Definition create_budget (log0 : list Call) (w : World) (m : ResMap) : Prop :=
  creates_succeed (store w) /\ well_keyed m /\
  forall n, creates_of n (log (store w)) = creates_of n log0 \/
            (creates_of n (log (store w)) = S (creates_of n log0) /\
             action_of n m = Some "created").

(** The budget after a step returning a map ([mapof] picks it out of the
    result); after an exception, for some map. *)
Definition budget_after {A} (log0 : list Call) (mapof : A -> ResMap) (m : ResMap)
    (r : Res A * World) : Prop :=
  match fst r with
  | Ok a => create_budget log0 (snd r) (mapof a)
  | Err _ => exists m', create_budget log0 (snd r) m'
  end.

Definition fully_resolved (keys : list string) (rels : list RelationshipMention)
    (v : ValidatedRelationship) : Prop :=
  In (v_from_entity v) keys /\ In (v_to_entity v) keys /\
  v_from_id v <> "" /\ v_to_id v <> "" /\
  exists rel, In rel rels /\
    rm_from_entity rel = v_from_entity v /\ rm_to_entity rel = v_to_entity v /\
    rm_relationship_type rel = v_relationship_type v /\
    rm_strength rel = v_strength v /\ rm_properties rel = v_properties v /\
    rm_context rel = v_context v.

(** ** Concrete inputs for the duplicate-name examples *)

Definition fx_acme_store : Store :=
  fx_store [("Company", mkNode "c1" "Acme" None)] no_fault.

Definition fx_acme_twice : list EntityMention :=
  [fx_entity "Acme" "company"; fx_entity "Acme" "topic"].

Definition fx_acme_world : World :=
  mkWorld fx_acme_store (fx_service "Alice" (Some "p1") None).

(** Alice is in the store, Bob is not; [f] says which calls raise. *)
Definition fx_alice_only (f : Call -> bool) : World :=
  mkWorld (fx_store [fx_person "p1" "Alice"] f) (fx_service "Alice" (Some "p1") None).

Definition fx_bob_twice : list EntityMention :=
  [fx_entity "Bob" "person"; fx_entity "Bob" "person"].

Definition fx_bob_rels : list RelationshipMention :=
  [fx_rel "Alice" "Bob" "KNOWS" None []; fx_rel "Bob" "Alice" "KNOWS" None []].

(** ** More of the graph store ([people.py], [topics.py])

    Edges name their endpoints by node id; ids are [uuid4] values, so an id
    names one node whatever its label. *)

(** [MATCH (x:Label {id: $id}) RETURN x] followed by [result.single()]. *)
Fixpoint find_by_id (label id : string) (ns : list (string * Node)) : option Node :=
  match ns with
  | [] => None
  | (l, n) :: ns' =>
      if String.eqb l label && String.eqb (n_id n) id then Some n
      else find_by_id label id ns'
  end.

(** [get_person(person_id)] *)
Definition get_person (person_id : string) (s : Store) : option Node :=
  find_by_id "Person" person_id (nodes s).

(** The nodes of one label, in store order. *)
Definition label_nodes (label : string) (ns : list (string * Node)) : list Node :=
  map snd (filter (fun ln => String.eqb (fst ln) label) ns).

(** [ORDER BY p.name] *)
Definition name_le (a b : Node) : bool := String.leb (n_name a) (n_name b).

(** [list_people()]: [MATCH (p:Person) RETURN p ORDER BY p.name]. *)
Definition list_people (s : Store) : list Node :=
  sort_nodes name_le (label_nodes "Person" (nodes s)).

Definition is_person_id (person_id : string) (ln : string * Node) : bool :=
  String.eqb (fst ln) "Person" && String.eqb (n_id (snd ln)) person_id.

Definition touches (id : string) (e : Edge) : bool :=
  String.eqb (e_from e) id || String.eqb (e_to e) id.

(** [delete_person(person_id)]: [MATCH (p:Person {id: $person_id}) DETACH
    DELETE p RETURN count(p) as deleted_count], then [deleted_count > 0]. *)
Definition delete_person (person_id : string) (s : Store) : bool * Store :=
  let deleted_count := length (filter (is_person_id person_id) (nodes s)) in
  (Nat.ltb 0 deleted_count,
   with_edges
     (if Nat.ltb 0 deleted_count
      then filter (fun e => negb (touches person_id e)) (edges s)
      else edges s)
     (with_nodes (filter (fun ln => negb (is_person_id person_id ln)) (nodes s)) s)).

Definition is_interest (person_id topic_id : string) (e : Edge) : bool :=
  String.eqb (e_label e) "INTERESTED_IN" && String.eqb (e_from e) person_id
  && String.eqb (e_to e) topic_id.

(** [unlink_person_from_topic(person_id, topic_id)]: [MATCH (p:Person {id})
    -[r:INTERESTED_IN]->(t:Topic {id}) DELETE r RETURN count(r)], then
    [deleted_count > 0]. *)
Definition unlink_person_from_topic (person_id topic_id : string) (s : Store)
  : bool * Store :=
  if node_exists "Person" person_id (nodes s) && node_exists "Topic" topic_id (nodes s)
  then
    let deleted_count := length (filter (is_interest person_id topic_id) (edges s)) in
    (Nat.ltb 0 deleted_count,
     with_edges (filter (fun e => negb (is_interest person_id topic_id e)) (edges s)) s)
  else (false, s).

(** [get_people_interested_in_topic(topic_id)]: [MATCH (p:Person)
    -[:INTERESTED_IN]->(t:Topic {id: $topic_id}) RETURN p ORDER BY p.name];
    one row per matching relationship. *)
Definition get_people_interested_in_topic (topic_id : string) (s : Store)
  : list Node :=
  if node_exists "Topic" topic_id (nodes s) then
    sort_nodes name_le
      (flat_map (fun p => map (fun _ => p) (filter (is_interest (n_id p) topic_id) (edges s)))
         (label_nodes "Person" (nodes s)))
  else [].

(** The key a [MERGE (a)-[r:LABEL]->(b)] matches on. *)
Definition edge_key (e : Edge) : string * string * string :=
  (e_label e, e_from e, e_to e).

(** The test of [merge_edge]. *)
Definition merge_match (label a b : string) (e : Edge) : bool :=
  String.eqb (e_label e) label && String.eqb (e_from e) a && String.eqb (e_to e) b.

Definition edge_key_dec (x y : string * string * string) : {x = y} + {x <> y}.
Proof. decide equality; [|decide equality]; apply String.string_dec. Defined.

(** ** The AI router ([backend/api/routers/ai.py]) *)

(** [settings.OPENAI_API_KEY] *)
Record Settings := mkSettings { OPENAI_API_KEY : option string }.

Record AdvancedNoteProcessingRequest := mkRequest {
  req_note_text : string;
  req_main_person_name : string;
  req_main_person_id : option string;
  req_auto_create_entities : bool
}.

(** What an endpoint raises: an exception escaping the processor, or an
    [HTTPException]; its [detail] is a text, or a prefix followed by [str]
    of the exception it wraps. *)
Inductive RouterExn :=
| Raised (e : Exn)
| HTTPException (status_code : nat) (detail : Detail)
with Detail :=
| DText (text : string)
| DWrap (prefix : string) (cause : RouterExn).

Inductive RRes (A : Type) :=
| ROk (a : A)
| RErr (e : RouterExn).
Arguments ROk {A} a.
Arguments RErr {A} e.

Record AdvancedNoteProcessingResponse := mkAdvancedResponse {
  resp_analysis : NoteAnalysis;
  resp_resolved_entities : ResMap;
  resp_validated_relationships : list ValidatedRelationship;
  resp_created_entities : CreatedEntities;
  resp_main_person_id : option string;
  resp_processing_confidence : Q
}.

Record TestExtractionData := mkTestData {
  td_analysis : NoteAnalysis;
  td_resolved_entities : ResMap;
  td_validated_relationships : list ValidatedRelationship;
  td_main_person_id : option string;
  td_processing_confidence : Q;
  td_test_mode : bool
}.

Record CreateEntitiesData := mkCreateData {
  cd_created_entities : CreatedEntities;
  cd_note_text : string;
  cd_main_person_id : option string
}.

Inductive ResponseData :=
| AdvancedData (d : AdvancedNoteProcessingResponse)
| TestData (d : TestExtractionData)
| CreateData (d : CreateEntitiesData).

Record APIResponse := mkAPIResponse {
  api_success : bool;
  api_message : string;
  api_data : ResponseData
}.

Definition not_configured : RouterExn :=
  HTTPException 503
    (DText "AI service is not configured. Please set OPENAI_API_KEY environment variable.").

(** The [try] body shared by the three processing endpoints: the key check,
    [set_main_person(request.main_person_name, request.main_person_id)],
    [process_note_advanced(request.note_text)], and the response built from
    the result by [k]. *)
Definition run_processor {A} (settings : Settings) (request : AdvancedNoteProcessingRequest)
    (k : ProcessResult -> A) : World -> RRes A * World :=
  fun w =>
    if negb (truthy (OPENAI_API_KEY settings)) then (RErr not_configured, w)
    else
      match (set_main_person (req_main_person_name request) (req_main_person_id request) ;;;
             process_note_advanced (req_note_text request)) w with
      | (Ok result, w') => (ROk (k result), w')
      | (Err e, w') => (RErr (Raised e), w')
      end.

(** [except Exception as e: raise HTTPException(status_code=500,
    detail=f"<prefix>{str(e)}")]: [HTTPException] is an [Exception] too. *)
Definition router_try {A} (prefix : string) (body : World -> RRes A * World)
  : World -> RRes A * World :=
  fun w =>
    match body w with
    | (ROk a, w') => (ROk a, w')
    | (RErr e, w') => (RErr (HTTPException 500 (DWrap prefix e)), w')
    end.

(** [result["analysis"].get("confidence_score", 0.8)]: [analysis.dict()]
    always carries the key. *)
Definition processing_confidence (result : ProcessResult) : Q :=
  na_confidence_score (pr_analysis result).

(** [POST /process-note-advanced] *)
Definition endpoint_process_note_advanced (settings : Settings)
    (request : AdvancedNoteProcessingRequest) : World -> RRes APIResponse * World :=
  router_try "Error in advanced note processing: "
    (run_processor settings request (fun result =>
       mkAPIResponse true "Advanced note processing completed successfully"
         (AdvancedData (mkAdvancedResponse (pr_analysis result)
            (pr_resolved_entities result) (pr_validated_relationships result)
            (pr_created_entities result) (pr_main_person_id result)
            (processing_confidence result))))).

(** [POST /process-note] *)
Definition endpoint_process_note_legacy := endpoint_process_note_advanced.

(** [POST /test-extraction] *)
Definition endpoint_test_extraction (settings : Settings)
    (request : AdvancedNoteProcessingRequest) : World -> RRes APIResponse * World :=
  router_try "Error testing advanced note extraction: "
    (run_processor settings request (fun result =>
       mkAPIResponse true "Advanced note extraction test completed successfully"
         (TestData (mkTestData (pr_analysis result) (pr_resolved_entities result)
            (pr_validated_relationships result) (pr_main_person_id result)
            (processing_confidence result) true)))).

(** [POST /create-entities] *)
Definition endpoint_create_entities (settings : Settings)
    (request : AdvancedNoteProcessingRequest) : World -> RRes APIResponse * World :=
  router_try "Error creating entities from AI processing: "
    (run_processor settings request (fun result =>
       mkAPIResponse true
         "Entities created successfully in the graph using advanced processing"
         (CreateData (mkCreateData (pr_created_entities result) (req_note_text request)
            (pr_main_person_id result))))).

Definition rstatus {A} (r : RRes A * World) : option nat :=
  match fst r with
  | RErr (HTTPException code _) => Some code
  | _ => None
  end.

(** ** Concrete inputs for the store examples *)

Definition fx_search_world : World :=
  mkWorld (fx_store [fx_person "p3" "Mary Alice"; fx_person "p2" "Alice B";
                     ("Company", mkNode "c1" "Alice" None); fx_person "p1" "Alice"] no_fault)
          (fx_service "Alice" None None).

Definition fx_search_result : list Node :=
  ok_or [] (fst (search_people "Alice" fx_search_world)).

Definition fx_topic_world : World :=
  mkWorld (fx_store [fx_person "p1" "Alice"; ("Topic", mkNode "t1" "AI" None)] no_fault)
          (fx_service "Alice" (Some "p1") None).

(** No person in the store, an empty main person name and no id. *)
Definition fx_empty_name_world : World :=
  mkWorld (fx_store [("Topic", mkNode "t1" "AI" None)] no_fault) (fx_service "" None None).

(** A topic name of 110 characters, over the 100 of [Topic.name]. *)
Definition fx_long_name : string := String.concat "" (repeat "abcdefghij" 11).

Definition fx_long_topic : Resolution :=
  mkResolution "create_new" (fx_entity fx_long_name "topic") None (Some conf09) None.

(** Alice exists; Bob is new and still to be created. *)
Definition fx_new_bob_map : ResMap :=
  [("Alice", mkResolution "use_existing" (fx_entity "Alice" "person") (Some "p1") (Some conf1) None);
   ("Bob", mkResolution "create_new" (fx_entity "Bob" "person") None (Some conf09) None)].

(** The report entry [_create_graph_entities] appends for a relationship
    whose store call returned. *)
Definition rel_entry (rel : ValidatedRelationship) : RelReportEntry :=
  mkRelReportEntry (v_from_entity rel) (v_to_entity rel) (v_relationship_type rel) "created".

(** [link_raises rel w]: the store call that [_create_graph_entities] makes
    for [rel] raises when run from the world [w]. *)
Definition link_raises (rel : ValidatedRelationship) (w : World) : bool :=
  match fst (link_relationship rel w) with Err _ => true | Ok _ => false end.

(** A store whose [KNOWS] link calls raise. *)
Definition knows_fault : Call -> bool :=
  fun c => match c with CLink l _ _ => String.eqb l "KNOWS" | _ => false end.

Definition fx_two_rels : list ValidatedRelationship :=
  [mkValidated "Alice" "Bob" "p1" "p2" "KNOWS" None [] "";
   mkValidated "Alice" "AI" "p1" "t1" "INTERESTED_IN" None [] ""].

(** An API key is set; the request names Alice with her id. *)
Definition fx_settings_on : Settings := mkSettings (Some "sk-test").

Definition fx_request_p1 : AdvancedNoteProcessingRequest :=
  mkRequest "I met Bob." "Alice" (Some "p1") true.

Definition fx_error_response : APIResponse :=
  mkAPIResponse false "" (CreateData (mkCreateData empty_created "" None)).

(** A store whose name lookups raise. *)
Definition lookup_fault : Call -> bool :=
  fun c => match c with CGetByName _ _ => true | _ => false end.

(** A person interested in "Acme", which the store only has as a company. *)
Definition fx_interest_acme : ValidatedRelationship :=
  mkValidated "Alice" "Acme" "p1" "c1" "INTERESTED_IN" None [] "".

Definition fx_alice_acme_world : World :=
  mkWorld (fx_store [fx_person "p1" "Alice"; ("Company", mkNode "c1" "Acme" None)] no_fault)
          (fx_service "Alice" (Some "p1") None).

(** * Properties *)

(** ** The monad *)

Lemma fp_ret {A} P (a : A) : footprint P (ret a).
Proof. intro w; repeat split; exists []; auto. Qed.

Lemma fp_raise {A} P e : footprint P (@raise A e).
Proof. intro w; repeat split; exists []; auto. Qed.

Lemma fp_get_svc P : footprint P get_svc.
Proof. intro w; repeat split; exists []; auto. Qed.

Lemma fp_get_world P : footprint P get_world.
Proof. intro w; repeat split; exists []; auto. Qed.

Lemma fp_bind {A B} P (m : M A) (f : A -> M B) :
  footprint P m -> (forall a, footprint P (f a)) -> footprint P (bind m f).
Proof.
  intros Hm Hf w. unfold bind. specialize (Hm w).
  destruct (m w) as [[a|e] w1]; simpl in *; [|exact Hm].
  destruct Hm as (Hs & Hfl & new & Hl & Hp).
  destruct (Hf a w1) as (Hs2 & Hf2 & new2 & Hl2 & Hp2).
  repeat split; try congruence.
  exists (new2 ++ new). rewrite Hl2, Hl, app_assoc. split; [reflexivity|].
  apply Forall_app; auto.
Qed.

Lemma fp_try {A} P (m : M A) (h : Exn -> M A) :
  footprint P m -> (forall e, footprint P (h e)) -> footprint P (try_except m h).
Proof.
  intros Hm Hh w. unfold try_except. specialize (Hm w).
  destruct (m w) as [[a|e] w1]; simpl in *; [exact Hm|].
  destruct Hm as (Hs & Hfl & new & Hl & Hp).
  destruct (Hh e w1) as (Hs2 & Hf2 & new2 & Hl2 & Hp2).
  repeat split; try congruence.
  exists (new2 ++ new). rewrite Hl2, Hl, app_assoc. split; [reflexivity|].
  apply Forall_app; auto.
Qed.

Lemma fp_store_call {A} (P : Call -> Prop) c (q : Store -> A * Store) :
  P c ->
  (forall s, log (snd (q s)) = log s /\ fault (snd (q s)) = fault s) ->
  footprint P (store_call c q).
Proof.
  intros Hc Hq w. unfold store_call.
  destruct (fault (store_log c (store w)) c); simpl.
  - repeat split. exists [c]. auto.
  - destruct (q (store_log c (store w))) as [a s'] eqn:E. simpl.
    destruct (Hq (store_log c (store w))) as [Hl Hf]. rewrite E in Hl, Hf.
    simpl in *. repeat split; [exact Hf|]. exists [c]. rewrite Hl. auto.
Qed.

Create HintDb footprint.
#[export] Hint Resolve fp_ret fp_raise fp_get_svc fp_get_world : footprint.

Ltac fp_step :=
  repeat match goal with
  | |- footprint _ (bind _ _) => apply fp_bind; [|intro]
  | |- footprint _ (try_except _ _) => apply fp_try; [|intro]
  | |- footprint _ (match ?x with _ => _ end) => destruct x
  | |- footprint _ (if ?b then _ else _) => destruct b
  | |- footprint _ (let '(_, _) := ?x in _) => destruct x
  end; eauto with footprint.

Lemma fp_get_by_name label name : footprint not_create (get_by_name label name).
Proof. apply fp_store_call; simpl; auto. Qed.

Lemma fp_search_people q : footprint not_create (search_people q).
Proof. apply fp_store_call; simpl; auto. Qed.

Lemma fp_link label la lb a b sets : footprint not_create (link label la lb a b sets).
Proof.
  apply fp_store_call; simpl; auto.
  intro s. destruct (node_exists la a (nodes s) && node_exists lb b (nodes s)); auto.
Qed.

#[export] Hint Resolve fp_get_by_name fp_search_people fp_link : footprint.

Lemma fp_resolve_entity e note : footprint not_create (resolve_entity e note).
Proof.
  unfold resolve_entity, resolve_person_entity, resolve_company_entity,
    resolve_topic_entity, resolve_event_entity, resolve_location_entity,
    resolve_exact, get_person_by_name, get_company_by_name, get_topic_by_name,
    get_event_by_name, get_location_by_city, create_fallback_disambiguation.
  fp_step.
Qed.

Lemma fp_resolve_each es note m : footprint not_create (resolve_each es note m).
Proof.
  revert m; induction es as [|e es IH]; intro m; simpl.
  - apply fp_ret.
  - apply fp_bind; [apply fp_resolve_entity | intro; apply IH].
Qed.

Lemma fp_resolve_ambiguous_entities es note :
  footprint not_create (resolve_ambiguous_entities es note).
Proof.
  unfold resolve_ambiguous_entities. apply fp_bind; [apply fp_get_svc|].
  intro; apply fp_resolve_each.
Qed.

#[export] Hint Resolve fp_resolve_entity fp_resolve_each fp_resolve_ambiguous_entities : footprint.

Lemma fp_link_relationship rel : footprint not_create (link_relationship rel).
Proof.
  unfold link_relationship, link_person_to_company, create_person_relationship,
    link_person_to_topic, link_person_to_event. fp_step.
Qed.

Lemma fp_commit_each rels c : footprint not_create (commit_each rels c).
Proof.
  revert c; induction rels as [|rel rels IH]; intro c; simpl.
  - apply fp_ret.
  - apply fp_bind; [|intro; apply IH].
    apply fp_try; [|intro; apply fp_ret].
    apply fp_bind; [apply fp_link_relationship|intro; apply fp_ret].
Qed.

Lemma fp_create_graph_entities m vs : footprint not_create (create_graph_entities m vs).
Proof. apply fp_commit_each. Qed.

(** C1 (code_bug): the KNOWS branch of [_create_graph_entities] calls
    [create_person_relationship(from_id, to_id, rel.get("strength", 3),
    properties.get("type", "acquaintance"))], whereas the store function
    declares [(from_person_id, to_person_id, relationship_type, strength)].
    The edge therefore gets [type] = the strength and [strength] = the
    sub-type; and as the validated dictionary always has a ["strength"] key,
    a missing strength stores [None], never the default 3. *)
Lemma C1_knows_arguments_swapped :
  edges (store (snd (create_graph_entities []
    [mkValidated "Alice" "Bob" "p1" "p2" "KNOWS" (Some 4%Z)
       [("type", VStr "friend")] ""] fx_alice_bob)))
  = [mkEdge "KNOWS" "p1" "p2"
       [("type", VInt 4); ("strength", VStr "friend");
        ("created_at", VTime "2026-01-01T00:00:00+00:00")]]
  /\
  edges (store (snd (create_graph_entities []
    [mkValidated "Alice" "Bob" "p1" "p2" "KNOWS" None [] ""] fx_alice_bob)))
  = [mkEdge "KNOWS" "p1" "p2"
       [("type", VNone); ("strength", VStr "acquaintance");
        ("created_at", VTime "2026-01-01T00:00:00+00:00")]].
Proof. split; vm_compute; reflexivity. Qed.

(** C2 (code_bug): an extraction answer that does not validate as a
    [NoteAnalysis] (here the empty dictionary), or a disambiguation answer
    that does not validate as a [DisambiguationResult], reaches a call of a
    fallback method the class does not define; the [AttributeError] escapes
    [process_note_advanced]. *)
Lemma C2_fallbacks_raise :
  has_attribute "_create_fallback_analysis" = false
  /\ has_attribute "_create_fallback_disambiguation" = false
  /\ error_of (process_note_advanced "I met John."
       (mkWorld (fx_store [fx_person "p1" "Alice"] no_fault)
          (fx_service "Alice" None
             (Some (fun _ _ => RawAnalysisDict None None None None None)))))
     = Some (AttributeError "_create_fallback_analysis")
  /\ error_of (process_note_advanced "I met John."
       (mkWorld (fx_store [fx_person "p1" "Alice"; fx_person "p2" "John Smith";
                           fx_person "p3" "John Doe"] no_fault)
          (fx_service "Alice" None
             (Some (fx_chain (mkNoteAnalysis [fx_entity "John" "person"] []
                                None [] 1))))))
     = Some (AttributeError "_create_fallback_disambiguation").
Proof. vm_compute. repeat split. Qed.

(** C3 (code bug): the mention "alice" of the main person "Alice" is
    short-circuited by [_resolve_person_entity] ("Skip if this is the main
    person (already handled)"), but the resolution it returns carries the
    mention's own entity, named "alice", and is stored under "alice".
    [_ensure_entity_exists] re-verifies it with the case-sensitive
    [get_person_by_name("alice")], finds nothing and creates a second
    Person node for the main person; the resolution becomes "created". *)
Lemma C3_second_main_person_node :
  person_names (store (snd (process_note_advanced "I met Bob." fx_alice_lower)))
  = ["Alice"; "Bob"; "alice"]
  /\ option_map (fun p => option_map r_action (dict_get "alice" (pr_resolved_entities p)))
       (outcome (process_note_advanced "I met Bob." fx_alice_lower))
     = Some (Some "created").
Proof. vm_compute. split; reflexivity. Qed.

(** ** Dictionaries *)

Lemma dict_get_set k k' v m :
  dict_get k (dict_set k' v m) = if String.eqb k k' then Some v else dict_get k m.
Proof.
  induction m as [|[k1 v1] m IH]; simpl.
  - destruct (String.eqb k k'); reflexivity.
  - destruct (String.eqb k' k1) eqn:E1.
    + apply String.eqb_eq in E1; subst k1. simpl.
      destruct (String.eqb k k'); reflexivity.
    + simpl. rewrite IH.
      destruct (String.eqb k k1) eqn:E2; [|reflexivity].
      apply String.eqb_eq in E2; subst k1.
      destruct (String.eqb k k') eqn:E3; [|reflexivity].
      apply String.eqb_eq in E3; subst k'. rewrite String.eqb_refl in E1. discriminate.
Qed.

Lemma dict_get_in k m r : dict_get k m = Some r -> In k (map fst m).
Proof.
  induction m as [|[k1 v1] m IH]; simpl; [discriminate|].
  destruct (String.eqb k k1) eqn:E; intro H.
  - left. apply String.eqb_eq in E. auto.
  - right. auto.
Qed.

Lemma in_dict_get k m : In k (map fst m) -> exists r, dict_get k m = Some r.
Proof.
  induction m as [|[k1 v1] m IH]; simpl; [contradiction|].
  intros [H|H]; destruct (String.eqb k k1) eqn:E; eauto.
  subst k1. rewrite String.eqb_refl in E. discriminate.
Qed.

(** Updating a key that is present keeps the keys and their order. *)
Lemma dict_set_keys k v m :
  In k (map fst m) -> map fst (dict_set k v m) = map fst m.
Proof.
  induction m as [|[k1 v1] m IH]; simpl; [contradiction|].
  destruct (String.eqb k k1) eqn:E; simpl.
  - reflexivity.
  - intros [H|H]; [subst k1; rewrite String.eqb_refl in E; discriminate|].
    f_equal. auto.
Qed.

Lemma dict_set_keys_incl k v m x :
  In x (map fst m) -> In x (map fst (dict_set k v m)).
Proof.
  induction m as [|[k1 v1] m IH]; simpl; [contradiction|].
  destruct (String.eqb k k1); simpl; intros [H|H]; auto.
Qed.

Lemma dict_set_in k v m : In k (map fst (dict_set k v m)).
Proof.
  induction m as [|[k1 v1] m IH]; simpl; [auto|].
  destruct (String.eqb k k1) eqn:E; simpl; auto.
  left. apply String.eqb_eq in E. auto.
Qed.

Lemma dict_set_keys_sub k v m x :
  In x (map fst (dict_set k v m)) -> x = k \/ In x (map fst m).
Proof.
  induction m as [|[k1 v1] m IH]; simpl.
  - intros [H|[]]; auto.
  - destruct (String.eqb k k1); simpl; intros [H|H]; auto.
    destruct (IH H); auto.
Qed.

Lemma dict_set_nodup k v m :
  NoDup (map fst m) -> NoDup (map fst (dict_set k v m)).
Proof.
  induction m as [|[k1 v1] m IH]; simpl; intro H.
  - constructor; [auto|constructor].
  - inversion H as [|? ? Hn Hd]; subst.
    destruct (String.eqb k k1) eqn:E; simpl; [exact H|].
    constructor; auto.
    intro Hin. destruct (dict_set_keys_sub k v m k1 Hin) as [Heq|Hin']; auto.
    subst k1. rewrite String.eqb_refl in E. discriminate.
Qed.

Lemma footprint_svc {A} P (m : M A) w r w' :
  footprint P m -> m w = (r, w') -> svc w' = svc w.
Proof. intros H E. destruct (H w) as [Hs _]. rewrite E in Hs. exact Hs. Qed.

(** ** The main person *)

(** ** Configuration errors *)

(** C9 (amended): with no extraction chain configured, [process_note_advanced]
    raises the configuration error and leaves the world exactly as it was:
    no store call, no main-person setup, no resolution or creation. *)
Theorem C9_unconfigured_raises_untouched (note : string) (w : World)
    (Hcfg : extraction_chain (svc w) = None) :
  process_note_advanced note w = (Err ConfigError, w).
Proof.
  unfold process_note_advanced, try_except, bind, get_svc. simpl.
  rewrite Hcfg. reflexivity.
Qed.

Lemma C9_unconfigured_raises_untouched_witness :
  extraction_chain (svc fx_unconfigured) = None
  /\ process_note_advanced "I met Bob." fx_unconfigured = (Err ConfigError, fx_unconfigured).
Proof.
  assert (H : extraction_chain (svc fx_unconfigured) = None) by reflexivity.
  split; [exact H|]. exact (C9_unconfigured_raises_untouched "I met Bob." fx_unconfigured H).
Defined.

(** C9 (counterexample): the configuration error is not the only exception
    reaching the caller: with the service configured, a failing store lookup
    during the main-person setup propagates as it is. *)
Lemma C9_store_error_escapes :
  error_of (process_note_advanced "I met Bob." fx_store_down) = Some StoreError.
Proof. vm_compute. reflexivity. Qed.

(** ** Unknown relationship types *)

(** C8: a validated relationship whose type is none of WORKS_AT, KNOWS,
    INTERESTED_IN, ATTENDED makes no store call at all (the world is left
    as it is), raises nothing, and is still reported with action
    "created". *)
Theorem C8_unknown_type_noop_reported (v : ValidatedRelationship)
    (Hunknown : known_relationship_type (v_relationship_type v) = false) :
  (forall w, link_relationship v w = (Ok tt, w)) /\
  (forall rest c w,
     commit_each (v :: rest) c w
     = commit_each rest
         (report_relationship
            (mkRelReportEntry (v_from_entity v) (v_to_entity v)
               (v_relationship_type v) "created") c) w).
Proof.
  unfold known_relationship_type in Hunknown.
  apply orb_false_iff in Hunknown as [H123 H4].
  apply orb_false_iff in H123 as [H12 H3].
  apply orb_false_iff in H12 as [H1 H2].
  assert (Hl : forall w, link_relationship v w = (Ok tt, w)).
  { intro w. unfold link_relationship. rewrite H1, H2, H3, H4. reflexivity. }
  split; [exact Hl|].
  intros rest c w. simpl. unfold bind at 1, try_except.
  unfold bind at 1. rewrite Hl. reflexivity.
Qed.

Lemma C8_unknown_type_noop_reported_witness :
  known_relationship_type (v_relationship_type fx_unknown_rel) = false
  /\ link_relationship fx_unknown_rel fx_alice_bob = (Ok tt, fx_alice_bob).
Proof.
  assert (H : known_relationship_type (v_relationship_type fx_unknown_rel) = false)
    by reflexivity.
  split; [exact H|]. exact (proj1 (C8_unknown_type_noop_reported fx_unknown_rel H) fx_alice_bob).
Defined.

(** ** The creation report *)

Lemma bucket_report_entity t ty x c :
  In t known_entity_types ->
  bucket t (report_entity ty x c) = bucket t c ++ (if String.eqb ty t then [x] else []).
Proof.
  destruct c as [pe co to ev lo re].
  intro Ht. simpl in Ht.
  unfold report_entity.
  destruct (String.eqb ty "person") eqn:E1;
    [apply String.eqb_eq in E1; subst ty|];
  [destruct Ht as [<-|[<-|[<-|[<-|[<-|[]]]]]]; simpl; rewrite ?app_nil_r; reflexivity|].
  destruct (String.eqb ty "company") eqn:E2;
    [apply String.eqb_eq in E2; subst ty|];
  [destruct Ht as [<-|[<-|[<-|[<-|[<-|[]]]]]]; simpl; rewrite ?app_nil_r; reflexivity|].
  destruct (String.eqb ty "topic") eqn:E3;
    [apply String.eqb_eq in E3; subst ty|];
  [destruct Ht as [<-|[<-|[<-|[<-|[<-|[]]]]]]; simpl; rewrite ?app_nil_r; reflexivity|].
  destruct (String.eqb ty "event") eqn:E4;
    [apply String.eqb_eq in E4; subst ty|];
  [destruct Ht as [<-|[<-|[<-|[<-|[<-|[]]]]]]; simpl; rewrite ?app_nil_r; reflexivity|].
  destruct (String.eqb ty "location") eqn:E5;
    [apply String.eqb_eq in E5; subst ty|];
  destruct Ht as [<-|[<-|[<-|[<-|[<-|[]]]]]]; simpl;
    rewrite ?E1, ?E2, ?E3, ?E4, ?E5, ?app_nil_r; reflexivity.
Qed.

Lemma bucket_report_entities t m c :
  In t known_entity_types ->
  bucket t (report_entities m c) = bucket t c ++ entries_of t m.
Proof.
  intro Ht. revert c. induction m as [|[k r] m IH]; intro c; simpl.
  - rewrite app_nil_r. reflexivity.
  - rewrite IH, bucket_report_entity by exact Ht. unfold entries_of. simpl.
    destruct (String.eqb (em_entity_type (r_entity r)) t); simpl;
      rewrite <- app_assoc; reflexivity.
Qed.

Lemma bucket_report_relationship t x c :
  bucket t (report_relationship x c) = bucket t c.
Proof. destruct c; reflexivity. Qed.

(** The commit loop never raises, and only adds relationship entries. *)
Lemma commit_each_buckets rels c w :
  exists c', fst (commit_each rels c w) = Ok c' /\
             forall t, bucket t c' = bucket t c.
Proof.
  revert c w. induction rels as [|rel rels IH]; intros c w; simpl.
  - exists c. auto.
  - unfold bind at 1, try_except.
    destruct (bind (link_relationship rel) _ w) as [[c1|e] w1] eqn:E.
    + unfold bind in E.
      destruct (link_relationship rel w) as [[u|e] w2]; [|discriminate].
      unfold ret in E. injection E as <- <-.
      destruct (IH (report_relationship
                      (mkRelReportEntry (v_from_entity rel) (v_to_entity rel)
                         (v_relationship_type rel) "created") c) w2) as [c' [H1 H2]].
      exists c'. split; [exact H1|]. intro t. rewrite H2, bucket_report_relationship.
      reflexivity.
    + unfold ret. destruct (IH c w1) as [c' [H1 H2]]. exists c'. auto.
Qed.

(** C7 (amended): [_create_graph_entities] always returns, and the bucket of
    each of the five known entity types lists exactly one entry
    (name, id, action) per resolution of that type, in map order, whether
    the entity was created or reused. A resolution of any other type
    appears in no bucket. *)
Theorem C7_report_per_known_type (m : ResMap) (vs : list ValidatedRelationship)
    (w : World) :
  exists c, fst (create_graph_entities m vs w) = Ok c /\
    forall t, In t known_entity_types -> bucket t c = entries_of t m.
Proof.
  unfold create_graph_entities.
  destruct (commit_each_buckets vs (report_entities m empty_created) w) as [c [H1 H2]].
  exists c. split; [exact H1|].
  intros t Ht. rewrite H2, bucket_report_entities by exact Ht.
  destruct Ht as [<-|[<-|[<-|[<-|[<-|[]]]]]]; reflexivity.
Qed.

(** C7 (counterexample): a resolution of entity type "vehicle" yields no
    creation-report entry at all. *)
Lemma C7_unknown_type_unreported :
  create_graph_entities fx_vehicle_map [] fx_alice_bob = (Ok empty_created, fx_alice_bob).
Proof. vm_compute. reflexivity. Qed.

Lemma C7_report_per_known_type_witness :
  exists c, fst (create_graph_entities fx_vehicle_map [] fx_alice_bob) = Ok c /\
    forall t, In t known_entity_types -> bucket t c = entries_of t fx_vehicle_map.
Proof. exact (C7_report_per_known_type fx_vehicle_map [] fx_alice_bob). Defined.

(** ** Adopting the main person found by the fuzzy search *)

Lemma dict_set_head k ks k' v m :
  map fst m = k :: ks -> exists ks', map fst (dict_set k' v m) = k :: ks'.
Proof.
  destruct m as [|[k1 v1] m]; simpl; [discriminate|].
  intro H. injection H as -> _.
  destruct (String.eqb k' k); simpl; eauto.
Qed.

Lemma resolve_each_head es note m0 w m w' k ks :
  map fst m0 = k :: ks ->
  resolve_each es note m0 w = (Ok m, w') -> exists ks', map fst m = k :: ks'.
Proof.
  revert m0 w ks. induction es as [|e es IH]; intros m0 w ks Hk Hr; simpl in Hr.
  - unfold ret in Hr. injection Hr as <- _. eauto.
  - unfold bind in Hr.
    destruct (resolve_entity e note w) as [[r|err] w1]; [|discriminate].
    destruct (dict_set_head k ks (em_name e) r m0 Hk) as [ks' Hks'].
    exact (IH _ _ _ Hks' Hr).
Qed.

(** C10: when no main-person id is cached, no Person has exactly the main
    person's name, and the fuzzy search returns candidates [p :: ps], the
    setup adopts the first candidate without creating anything: the cached id
    becomes [p]'s id and the main person's name is overwritten with [p]'s
    stored name; the pinned resolution then carries that name and id, and
    the map of the resolver is keyed by it (its first key). *)
Theorem C10_fuzzy_adoption (w : World) (p : Node) (ps : list Node)
    (Hid : truthy (main_person_id (svc w)) = false)
    (Hexact : find_by_name "Person" (main_person_name (svc w)) (nodes (store w)) = None)
    (Hsearch : search_matches (main_person_name (svc w)) (nodes (store w)) = p :: ps)
    (Hf1 : fault (store w) (CGetByName "Person" (main_person_name (svc w))) = false)
    (Hf2 : fault (store w) (CSearchPeople (main_person_name (svc w))) = false) :
  exists w',
    ensure_main_person_exists w = (Ok tt, w') /\
    main_person_name (svc w') = n_name p /\
    main_person_id (svc w') = Some (n_id p) /\
    nodes (store w') = nodes (store w) /\
    em_name (r_entity (main_person_resolution (svc w'))) = n_name p /\
    r_existing_id (main_person_resolution (svc w')) = Some (n_id p) /\
    (forall es note m w'',
       resolve_ambiguous_entities es note w' = (Ok m, w'') ->
       exists ks, map fst m = n_name p :: ks).
Proof.
  unfold ensure_main_person_exists, bind, get_svc. simpl. rewrite Hid.
  unfold get_person_by_name, get_by_name, store_call. simpl.
  rewrite Hf1. simpl. rewrite Hexact.
  unfold search_people, store_call. simpl. rewrite Hf2. simpl. rewrite Hsearch.
  unfold put_svc. simpl.
  eexists. split; [reflexivity|]. simpl.
  repeat split.
  intros es note m w'' Hr.
  unfold resolve_ambiguous_entities, bind, get_svc in Hr. simpl in Hr.
  eapply (resolve_each_head _ _ _ _ _ _ (n_name p) []); [|exact Hr]. reflexivity.
Qed.

Lemma C10_fuzzy_adoption_witness :
  exists w',
    ensure_main_person_exists fx_fuzzy_alice = (Ok tt, w') /\
    main_person_name (svc w') = "Alice Smith" /\
    main_person_id (svc w') = Some "p7" /\
    nodes (store w') = nodes (store fx_fuzzy_alice) /\
    em_name (r_entity (main_person_resolution (svc w'))) = "Alice Smith" /\
    r_existing_id (main_person_resolution (svc w')) = Some "p7" /\
    (forall es note m w'',
       resolve_ambiguous_entities es note w' = (Ok m, w'') ->
       exists ks, map fst m = "Alice Smith" :: ks).
Proof.
  exact (C10_fuzzy_adoption fx_fuzzy_alice (mkNode "p7" "Alice Smith" None) []
           eq_refl (eq_refl : find_by_name "Person" "Alice" (nodes (store fx_fuzzy_alice)) = None)
           (eq_refl : search_matches "Alice" (nodes (store fx_fuzzy_alice))
                      = [mkNode "p7" "Alice Smith" None])
           eq_refl eq_refl).
Defined.

(** ** Ensure-exists *)

(** The closed form of [_create_entity_and_update_resolution]: it never
    raises; either nothing happens to the map, or the resolution at [key] is
    upgraded to "created" with the new node's id. *)
Lemma create_entity_spec key r m w :
  create_entity_and_update_resolution key r m w =
  match label_of_type (em_entity_type (r_entity r)) with
  | None => (Ok (None, m), w)
  | Some (label, lo, hi) =>
      if valid_len lo hi (em_name (r_entity r)) then
        let c := CCreate label (em_name (r_entity r)) in
        let s := store_log c (store w) in
        if fault s c then (Ok (None, m), mkWorld s (svc w))
        else
          let id := uuid_of (next_uuid s) in
          (Ok (Some id, dict_set key (set_created id r) m),
           mkWorld (bump_uuid (with_nodes (nodes s ++
                     [(label, mkNode id (em_name (r_entity r)) None)]) s)) (svc w))
      else (Ok (None, m), w)
  end.
Proof.
  unfold create_entity_and_update_resolution, try_except.
  destruct (label_of_type (em_entity_type (r_entity r))) as [[[label lo] hi]|];
    [|reflexivity].
  destruct (valid_len lo hi (em_name (r_entity r))); [|reflexivity].
  unfold bind, create_node, store_call.
  destruct (fault (store_log (CCreate label (em_name (r_entity r))) (store w))
              (CCreate label (em_name (r_entity r)))); reflexivity.
Qed.

Lemma create_entity_result key r m w o m1 w1 :
  create_entity_and_update_resolution key r m w = (Ok (o, m1), w1) ->
  m1 = m \/ exists id, o = Some id /\ m1 = dict_set key (set_created id r) m.
Proof.
  rewrite create_entity_spec.
  destruct (label_of_type (em_entity_type (r_entity r))) as [[[label lo] hi]|];
    [|intro H; injection H; auto].
  destruct (valid_len lo hi (em_name (r_entity r))); [|intro H; injection H; auto].
  simpl. destruct (fault _ _); intro H; injection H as <- <- _; eauto.
Qed.

Lemma ensure_result key m w o m1 w1 :
  ensure_entity_exists key m w = (Ok (o, m1), w1) ->
  m1 = m \/ exists r id, dict_get key m = Some r /\ o = Some id /\
                         m1 = dict_set key (set_created id r) m.
Proof.
  unfold ensure_entity_exists.
  destruct (dict_get key m) as [r|] eqn:Hk; [|intro H; injection H; auto].
  intro H. cut (m1 = m \/ exists id, o = Some id /\ m1 = dict_set key (set_created id r) m).
  { intros [->|[id [-> ->]]]; eauto 7. }
  revert H.
  assert (Hc : forall w0, create_entity_and_update_resolution key r m w0 = (Ok (o, m1), w1) ->
             m1 = m \/ exists id, o = Some id /\ m1 = dict_set key (set_created id r) m).
  { intros w0 H. exact (create_entity_result _ _ _ _ _ _ _ H). }
  destruct (String.eqb (r_action r) "use_existing").
  - destruct (truthy (r_existing_id r)); [|apply Hc].
    unfold bind.
    destruct (match label_of_type (em_entity_type (r_entity r)) with
              | Some (label, _, _) => get_by_name label (em_name (r_entity r))
              | None => ret None end w) as [[[n|]|e] w2];
      [intro H; injection H; auto|apply Hc|discriminate].
  - destruct (String.eqb (r_action r) "create_new").
    + destruct (truthy (r_existing_id r)); [intro H; injection H; auto|apply Hc].
    + intro H; injection H; auto.
Qed.

Lemma ensure_keys key m w o m1 w1 :
  ensure_entity_exists key m w = (Ok (o, m1), w1) -> map fst m1 = map fst m.
Proof.
  intro H. destruct (ensure_result _ _ _ _ _ _ H) as [->|[r [id [Hk [_ ->]]]]];
    [reflexivity|].
  apply dict_set_keys. exact (dict_get_in _ _ _ Hk).
Qed.

Lemma prematerialize_keys ks m w m1 w1 :
  prematerialize ks m w = (Ok m1, w1) -> map fst m1 = map fst m.
Proof.
  revert m w. induction ks as [|k ks IH]; intros m w H; simpl in H.
  - injection H as <- _. reflexivity.
  - destruct (dict_get k m) as [r|]; [|exact (IH _ _ H)].
    destruct (String.eqb (r_action r) "create_new" && negb (truthy (r_existing_id r)));
      [|exact (IH _ _ H)].
    unfold bind in H.
    destruct (ensure_entity_exists k m w) as [[[o m2]|e] w2] eqn:E; [|discriminate].
    rewrite (IH _ _ H). exact (ensure_keys _ _ _ _ _ _ E).
Qed.

Lemma validate_each_resolved rels m w vs m1 w1 :
  validate_each rels m w = (Ok (vs, m1), w1) ->
  map fst m1 = map fst m /\ Forall (fully_resolved (map fst m) rels) vs.
Proof.
  revert m w vs m1 w1.
  induction rels as [|rel rels IH]; intros m w vs m1 w1 H; simpl in H.
  - injection H as <- <- _. split; [reflexivity|constructor].
  - assert (Hmono : forall vs', Forall (fully_resolved (map fst m) rels) vs' ->
                    Forall (fully_resolved (map fst m) (rel :: rels)) vs').
    { intros vs' Hf. eapply Forall_impl; [|exact Hf].
      intros v (H1 & H2 & H3 & H4 & r0 & Hin & Hr). repeat split; auto.
      exists r0. split; [right; exact Hin|exact Hr]. }
    destruct (dict_get (rm_from_entity rel) m) as [rf|] eqn:Hf;
      [|destruct (IH _ _ _ _ _ H) as [Hk Hall]; auto].
    destruct (dict_get (rm_to_entity rel) m) as [rt|] eqn:Ht;
      [|destruct (IH _ _ _ _ _ H) as [Hk Hall]; auto].
    unfold bind in H.
    destruct (ensure_entity_exists (rm_from_entity rel) m w) as [[[o1 m2]|e] w2] eqn:E1;
      [|discriminate].
    cbn [fst snd] in H.
    destruct (ensure_entity_exists (rm_to_entity rel) m2 w2) as [[[o2 m3]|e] w3] eqn:E2;
      [|discriminate].
    cbn [fst snd] in H.
    pose proof (ensure_keys _ _ _ _ _ _ E1) as K1.
    pose proof (ensure_keys _ _ _ _ _ _ E2) as K2.
    assert (Hskip : validate_each rels m3 w3 = (Ok (vs, m1), w1) ->
                    map fst m1 = map fst m /\
                    Forall (fully_resolved (map fst m) (rel :: rels)) vs).
    { intro H'. destruct (IH _ _ _ _ _ H') as [Hk Hall].
      rewrite K2, K1 in Hk. rewrite K2, K1 in Hall. auto. }
    destruct o1 as [from_id|]; [|exact (Hskip H)].
    destruct o2 as [to_id|]; [|exact (Hskip H)].
    destruct (negb (String.eqb from_id "") && negb (String.eqb to_id "")) eqn:Htr;
      [|exact (Hskip H)].
    destruct (validate_each rels m3 w3) as [[[vs' m4]|e] w4] eqn:E3; [|discriminate].
    destruct (IH _ _ _ _ _ E3) as [Hk Hall]. rewrite K2, K1 in Hk, Hall.
    unfold ret in H. injection H as <- <- _.
    split; [exact Hk|].
    constructor; [|exact (Hmono _ Hall)].
    apply andb_true_iff in Htr as [Ha Hb]. simpl in Ha, Hb.
    apply negb_true_iff, String.eqb_neq in Ha.
    apply negb_true_iff, String.eqb_neq in Hb.
    split; [exact (dict_get_in _ _ _ Hf)|].
    split; [exact (dict_get_in _ _ _ Ht)|].
    split; [exact Ha|]. split; [exact Hb|].
    exists rel. simpl. repeat split; auto.
Qed.

(** C5: every relationship emitted by [_validate_relationships] names two
    entities present in the resolution map, carries two non-empty resolved
    ids, and is the relationship mention it came from (names, type,
    strength, properties, context); so a mention with a name absent from the
    map, or with a side that yields no id, is never emitted. *)
Theorem C5_validated_fully_resolved (rels : list RelationshipMention)
    (m : ResMap) (w w' : World) (vs : list ValidatedRelationship) (m' : ResMap)
    (Hv : validate_relationships rels m w = (Ok (vs, m'), w')) :
  map fst m' = map fst m /\ Forall (fully_resolved (map fst m) rels) vs.
Proof.
  unfold validate_relationships, bind in Hv.
  destruct (prematerialize (map fst m) m w) as [[m1|e] w1] eqn:E; [|discriminate].
  rewrite <- (prematerialize_keys _ _ _ _ _ E).
  exact (validate_each_resolved _ _ _ _ _ _ Hv).
Qed.

Lemma C5_validated_fully_resolved_witness :
  let R := validate_relationships fx_rels_ab fx_map_ab fx_alice_bob in
  R = (Ok (fst (ok_or ([], []) (fst R)), snd (ok_or ([], []) (fst R))), snd R)
  /\ fst (ok_or ([], []) (fst R)) = [mkValidated "Alice" "Bob" "p1" "p2" "KNOWS" (Some 3%Z) [] ""]
  /\ (map fst (snd (ok_or ([], []) (fst R))) = map fst fx_map_ab /\
      Forall (fully_resolved (map fst fx_map_ab) fx_rels_ab) (fst (ok_or ([], []) (fst R)))).
Proof.
  intro R.
  assert (H : R = (Ok (fst (ok_or ([], []) (fst R)), snd (ok_or ([], []) (fst R))), snd R))
    by (vm_compute; reflexivity).
  split; [exact H|]. split; [vm_compute; reflexivity|].
  exact (C5_validated_fully_resolved fx_rels_ab fx_map_ab fx_alice_bob (snd R)
           (fst (ok_or ([], []) (fst R))) (snd (ok_or ([], []) (fst R))) H).
Defined.

(** ** Self-healing of stale ids *)

(** C6 (amended): for a resolution with action "use_existing", a non-empty
    [existing_id], a known entity type, and a name that no longer resolves in
    the store, ensure-exists falls back to creation.  When the creation goes
    through (the name passes the model's length check and the store accepts
    the write), a fresh node of the mention's type is created, its id is
    returned, and the resolution becomes action "created" with that id.
    Otherwise [None] is returned and the map is left as it was. *)
Theorem C6_stale_id_recreated (k : string) (m : ResMap) (r : Resolution) (w : World)
    (label : string) (lo hi : nat)
    (Hk : dict_get k m = Some r)
    (Haction : r_action r = "use_existing")
    (Hid : truthy (r_existing_id r) = true)
    (Htype : label_of_type (em_entity_type (r_entity r)) = Some (label, lo, hi))
    (Hgone : find_by_name label (em_name (r_entity r)) (nodes (store w)) = None)
    (Hlookup : fault (store w) (CGetByName label (em_name (r_entity r))) = false) :
  (valid_len lo hi (em_name (r_entity r)) = true ->
   fault (store w) (CCreate label (em_name (r_entity r))) = false ->
   exists w',
     ensure_entity_exists k m w
     = (Ok (Some (uuid_of (next_uuid (store w))),
            dict_set k (set_created (uuid_of (next_uuid (store w))) r) m), w') /\
     nodes (store w') = nodes (store w) ++
       [(label, mkNode (uuid_of (next_uuid (store w))) (em_name (r_entity r)) None)] /\
     dict_get k (dict_set k (set_created (uuid_of (next_uuid (store w))) r) m)
     = Some (mkResolution "created" (r_entity r) (Some (uuid_of (next_uuid (store w))))
               (r_confidence r) (r_reasoning r)))
  /\
  (valid_len lo hi (em_name (r_entity r)) = false \/
   fault (store w) (CCreate label (em_name (r_entity r))) = true ->
   exists w', ensure_entity_exists k m w = (Ok (None, m), w')).
Proof.
  assert (Hens : ensure_entity_exists k m w =
            create_entity_and_update_resolution k r m
              (mkWorld (store_log (CGetByName label (em_name (r_entity r))) (store w)) (svc w))).
  { unfold ensure_entity_exists. rewrite Hk, Haction, Hid. simpl.
    rewrite Htype. unfold bind, get_by_name, store_call. simpl.
    rewrite Hlookup. simpl. rewrite Hgone. reflexivity. }
  rewrite Hens, create_entity_spec, Htype. simpl. split.
  - intros Hv Hf. rewrite Hv, Hf. eexists. split; [reflexivity|].
    split; [reflexivity|]. rewrite dict_get_set, String.eqb_refl. reflexivity.
  - intros [Hv|Hf].
    + rewrite Hv. eexists; reflexivity.
    + destruct (valid_len lo hi (em_name (r_entity r))); [rewrite Hf|]; eexists; reflexivity.
Qed.

Lemma C6_stale_id_recreated_witness :
  let w := mkWorld (fx_store [fx_person "p1" "Alice"] no_fault) (fx_service "Alice" (Some "p1") None) in
  let r := mkResolution "use_existing" (fx_entity "Zoe" "person") (Some "p9") (Some conf1) None in
  exists w',
    ensure_entity_exists "Zoe" fx_stale_zoe w
    = (Ok (Some "uuid-0", dict_set "Zoe" (set_created "uuid-0" r) fx_stale_zoe), w') /\
    nodes (store w') = nodes (store w) ++ [("Person", mkNode "uuid-0" "Zoe" None)] /\
    dict_get "Zoe" (dict_set "Zoe" (set_created "uuid-0" r) fx_stale_zoe)
    = Some (mkResolution "created" (fx_entity "Zoe" "person") (Some "uuid-0") (Some conf1) None).
Proof.
  intros w r.
  exact (proj1 (C6_stale_id_recreated "Zoe" fx_stale_zoe r w "Person" 1 200
                  eq_refl eq_refl eq_refl eq_refl eq_refl eq_refl) eq_refl eq_refl).
Defined.

(** C6 (counterexample): the fallback creation can fail, and then no entity
    is created and the resolution keeps its action "use_existing": when the
    store rejects the write, and when the name is empty (the [Person] model
    refuses it; the fuzzy search matches every person for an empty name, so
    such a resolution arises with a single Person in the store). *)
Lemma C6_failed_recreation :
  ensure_entity_exists "Zoe" fx_stale_zoe
    (mkWorld (fx_store [fx_person "p1" "Alice"] create_fault) (fx_service "Alice" None None))
  = (Ok (None, fx_stale_zoe),
     mkWorld (mkStore [fx_person "p1" "Alice"] [] 0 "2026-01-01T00:00:00+00:00"
                [CCreate "Person" "Zoe"; CGetByName "Person" "Zoe"] create_fault)
       (fx_service "Alice" None None))
  /\
  fst (ensure_entity_exists "" fx_stale_empty
         (mkWorld (fx_store [fx_person "p1" "Alice"] no_fault) (fx_service "Alice" None None)))
  = Ok (None, fx_stale_empty)
  /\
  option_map (fun r => (r_action r, r_existing_id r))
    (dict_get "" (ok_or [] (fst (resolve_each [fx_entity "" "person"] ""
       [] (mkWorld (fx_store [fx_person "p1" "Alice"] no_fault) (fx_service "Alice" None None))))))
  = Some ("use_existing", Some "p1").
Proof. vm_compute. repeat split. Qed.

(** ** One resolution per name, one creation per name *)

Lemma resolve_entity_entity e note w r w' :
  resolve_entity e note w = (Ok r, w') -> r_entity r = e.
Proof.
  unfold resolve_entity, resolve_person_entity, resolve_company_entity,
    resolve_topic_entity, resolve_event_entity, resolve_location_entity,
    resolve_exact, get_person_by_name, get_company_by_name, get_topic_by_name,
    get_event_by_name, get_location_by_city, get_by_name, search_people,
    store_call, create_fallback_disambiguation, bind, get_svc, ret, raise.
  repeat match goal with
  | |- context [if ?b then _ else _] => destruct b
  | |- context [match ?x with _ => _ end] => destruct x
  end; intro H; try discriminate; injection H as <- _; reflexivity.
Qed.

Lemma well_keyed_set k r m :
  well_keyed m -> em_name (r_entity r) = k -> well_keyed (dict_set k r m).
Proof.
  intros Hw Hr x v. rewrite dict_get_set.
  destruct (String.eqb x k) eqn:E.
  - intro H; injection H as <-. apply String.eqb_eq in E. congruence.
  - apply Hw.
Qed.

Lemma resolve_each_map es note m0 w m w' :
  well_keyed m0 -> NoDup (map fst m0) ->
  resolve_each es note m0 w = (Ok m, w') ->
  well_keyed m /\ NoDup (map fst m) /\
  (forall x, In x (map fst m0) -> In x (map fst m)) /\
  (forall e, In e es -> In (em_name e) (map fst m)).
Proof.
  revert m0 w. induction es as [|e es IH]; intros m0 w Hw Hd H; simpl in H.
  - injection H as <- _. repeat split; auto. intros e [].
  - unfold bind in H.
    destruct (resolve_entity e note w) as [[r|err] w1] eqn:E; [|discriminate].
    pose proof (resolve_entity_entity _ _ _ _ _ E) as Hr.
    destruct (IH _ _ (well_keyed_set _ _ _ Hw ltac:(rewrite Hr; reflexivity))
                (dict_set_nodup _ _ _ Hd) H) as (Hw' & Hd' & Hin & Hes).
    repeat split; auto.
    + intros x Hx. apply Hin, dict_set_keys_incl, Hx.
    + intros e' [<-|He']; auto. apply Hin, dict_set_in.
Qed.

Lemma main_person_map_well_keyed sv :
  well_keyed [(main_person_name sv, main_person_resolution sv)].
Proof.
  intros k r; simpl.
  destruct (String.eqb k (main_person_name sv)) eqn:E; [|discriminate].
  intro Hk; injection Hk as <-. symmetry; apply String.eqb_eq, E.
Qed.

Lemma resolve_ambiguous_entities_map es note w m w' :
  resolve_ambiguous_entities es note w = (Ok m, w') ->
  well_keyed m /\ NoDup (map fst m) /\ (forall e, In e es -> In (em_name e) (map fst m)).
Proof.
  unfold resolve_ambiguous_entities, bind, get_svc. intro H.
  destruct (resolve_each_map _ _ _ _ _ _ (main_person_map_well_keyed (svc w))
           ltac:(constructor; [intros []|constructor]) H) as (Hw & Hd & _ & Hes).
  auto.
Qed.

(** ** Creations per name *)

Lemma creates_of_not_create n new l :
  Forall not_create new -> creates_of n (new ++ l) = creates_of n l.
Proof.
  induction 1 as [|c new Hc _ IH]; [reflexivity|].
  destruct c; simpl in Hc; try contradiction; exact IH.
Qed.

Lemma budget_footprint {A} (c : M A) log0 w m :
  footprint not_create c -> create_budget log0 w m -> create_budget log0 (snd (c w)) m.
Proof.
  intros Hfp (Hok & Hw & Hn).
  destruct (Hfp w) as (_ & Hf & new & Hl & Hp).
  split; [unfold creates_succeed; rewrite Hf; exact Hok|].
  split; [exact Hw|].
  intro n. rewrite Hl, creates_of_not_create by exact Hp. apply Hn.
Qed.

Lemma budget_fresh w m :
  creates_succeed (store w) -> well_keyed m -> create_budget (log (store w)) w m.
Proof. intros Hok Hw. split; [exact Hok|]. split; [exact Hw|]. intro; left; reflexivity. Qed.

Lemma budget_create log0 k r m w :
  create_budget log0 w m -> dict_get k m = Some r -> r_action r <> "created" ->
  budget_after log0 snd m (create_entity_and_update_resolution k r m w).
Proof.
  intros (Hok & Hw & Hn) Hk Ha. rewrite create_entity_spec.
  destruct (label_of_type (em_entity_type (r_entity r))) as [[[label lo] hi]|];
    [|split; auto].
  destruct (valid_len lo hi (em_name (r_entity r))); [|split; auto].
  cbn zeta. simpl (fault _ _). rewrite Hok. simpl.
  pose proof (Hw k r Hk) as Hkey.
  split; [exact Hok|].
  split; [apply well_keyed_set; [exact Hw|exact Hkey]|].
  intro n. unfold creates_of. simpl.
  destruct (String.eqb (em_name (r_entity r)) n) eqn:E.
  - apply String.eqb_eq in E. rewrite Hkey in E. subst n.
    destruct (Hn k) as [Heq|[_ Hc]].
    + right. unfold creates_of in Heq. simpl. rewrite Heq. split; [reflexivity|].
      unfold action_of. rewrite dict_get_set, String.eqb_refl. reflexivity.
    + exfalso. unfold action_of in Hc. rewrite Hk in Hc. injection Hc. exact Ha.
  - rewrite Hkey in E. apply String.eqb_neq in E.
    destruct (Hn n) as [Heq|[Heq Hc]]; [left; exact Heq|right; split; [exact Heq|]].
    unfold action_of in *. rewrite dict_get_set.
    destruct (String.eqb n k) eqn:E'; [apply String.eqb_eq in E'; congruence|exact Hc].
Qed.

Lemma budget_ensure log0 k m w :
  create_budget log0 w m -> budget_after log0 snd m (ensure_entity_exists k m w).
Proof.
  intro Hb. unfold ensure_entity_exists.
  destruct (dict_get k m) as [r|] eqn:Hk; [|exact Hb].
  destruct (String.eqb (r_action r) "use_existing") eqn:Eu.
  - apply String.eqb_eq in Eu.
    assert (Ha : r_action r <> "created") by (rewrite Eu; discriminate).
    destruct (truthy (r_existing_id r)); [|exact (budget_create _ _ _ _ _ Hb Hk Ha)].
    set (q := match label_of_type (em_entity_type (r_entity r)) with
              | Some (label, _, _) => get_by_name label (em_name (r_entity r))
              | None => ret None end).
    assert (Hq : footprint not_create q)
      by (unfold q; destruct (label_of_type _) as [[[? ?] ?]|]; fp_step).
    pose proof (budget_footprint q _ _ _ Hq Hb) as Hb1.
    unfold bind. destruct (q w) as [[[n|]|e] w1]; simpl in Hb1.
    + exact Hb1.
    + exact (budget_create _ _ _ _ _ Hb1 Hk Ha).
    + exists m. exact Hb1.
  - destruct (String.eqb (r_action r) "create_new") eqn:Ec; [|exact Hb].
    apply String.eqb_eq in Ec.
    assert (Ha : r_action r <> "created") by (rewrite Ec; discriminate).
    destruct (truthy (r_existing_id r)); [exact Hb|].
    exact (budget_create _ _ _ _ _ Hb Hk Ha).
Qed.

Lemma budget_prematerialize log0 ks m w :
  create_budget log0 w m -> budget_after log0 (fun m1 => m1) m (prematerialize ks m w).
Proof.
  revert m w. induction ks as [|k ks IH]; intros m w Hb; simpl; [exact Hb|].
  destruct (dict_get k m) as [r|]; [|apply IH, Hb].
  destruct (String.eqb (r_action r) "create_new" && negb (truthy (r_existing_id r)));
    [|apply IH, Hb].
  unfold bind. pose proof (budget_ensure _ k _ _ Hb) as He.
  destruct (ensure_entity_exists k m w) as [[[o m2]|e] w2]; simpl in He.
  - apply IH, He.
  - exact He.
Qed.

Lemma budget_validate_each log0 rels m w :
  create_budget log0 w m -> budget_after log0 snd m (validate_each rels m w).
Proof.
  revert m w. induction rels as [|rel rels IH]; intros m w Hb; simpl; [exact Hb|].
  destruct (dict_get (rm_from_entity rel) m); [|apply IH, Hb].
  destruct (dict_get (rm_to_entity rel) m); [|apply IH, Hb].
  unfold bind. pose proof (budget_ensure _ (rm_from_entity rel) _ _ Hb) as H1.
  destruct (ensure_entity_exists (rm_from_entity rel) m w) as [[[o1 m2]|e] w2];
    simpl in H1; [|exact H1].
  cbn [fst snd].
  pose proof (budget_ensure _ (rm_to_entity rel) m2 w2 H1) as H2.
  destruct (ensure_entity_exists (rm_to_entity rel) m2 w2) as [[[o2 m3]|e] w3];
    simpl in H2; [|exact H2].
  pose proof (IH m3 w3 H2) as H3. cbn [fst snd].
  destruct o1 as [from_id|]; [|exact H3].
  destruct o2 as [to_id|]; [|exact H3].
  destruct (negb (String.eqb from_id "") && negb (String.eqb to_id "")); [|exact H3].
  destruct (validate_each rels m3 w3) as [[[vs' m4]|e] w4]; exact H3.
Qed.

Lemma budget_bound log0 w m n :
  create_budget log0 w m -> creates_of n (log (store w)) <= creates_of n log0 + 1.
Proof. intros (_ & _ & Hn). destruct (Hn n) as [H|[H _]]; lia. Qed.




(** ** Sorting and searching in the store *)

Lemma insert_sorted_perm le x l : Permutation (insert_sorted le x l) (x :: l).
Proof.
  induction l as [|y l IH]; simpl; [reflexivity|].
  destruct (le x y); [reflexivity|].
  rewrite IH. apply perm_swap.
Qed.

Lemma sort_nodes_perm le l : Permutation (sort_nodes le l) l.
Proof.
  induction l as [|x l IH]; simpl; [reflexivity|].
  rewrite insert_sorted_perm. apply perm_skip, IH.
Qed.

Section InsertionSort.
Variable le : Node -> Node -> bool.
Hypothesis le_total : forall a b, le a b = false -> le b a = true.

Lemma insert_sorted_sorted x l :
  Sorted (fun a b => le a b = true) l ->
  Sorted (fun a b => le a b = true) (insert_sorted le x l).
Proof.
  induction l as [|y l IH]; intro Hs; simpl; [repeat constructor|].
  destruct (le x y) eqn:Exy; [constructor; [exact Hs|constructor; exact Exy]|].
  apply Sorted_inv in Hs as [Hl Hhd].
  constructor; [exact (IH Hl)|].
  destruct l as [|z l]; simpl; [constructor; exact (le_total _ _ Exy)|].
  destruct (le x z); constructor; [exact (le_total _ _ Exy)|].
  inversion Hhd; assumption.
Qed.

Lemma sort_nodes_sorted l : Sorted (fun a b => le a b = true) (sort_nodes le l).
Proof.
  induction l as [|x l IH]; simpl; [constructor|].
  apply insert_sorted_sorted, IH.
Qed.

End InsertionSort.

Lemma name_le_total a b : name_le a b = false -> name_le b a = true.
Proof.
  unfold name_le. intro H. destruct (String.leb_total (n_name a) (n_name b)); congruence.
Qed.

Lemma search_le_total q a b : search_le q a b = false -> search_le q b a = true.
Proof.
  unfold search_le. intro H. apply orb_false_iff in H as [H1 H2].
  apply Nat.ltb_ge in H1.
  destruct (Nat.eq_dec (search_rank q a) (search_rank q b)) as [E|E].
  - rewrite E, Nat.eqb_refl in H2. simpl in H2.
    rewrite E, Nat.ltb_irrefl, Nat.eqb_refl. simpl.
    destruct (String.leb_total (n_name a) (n_name b)); congruence.
  - apply orb_true_iff. left. apply Nat.ltb_lt. lia.
Qed.

Lemma search_le_rank q a b : search_le q a b = true -> search_rank q a <= search_rank q b.
Proof.
  unfold search_le. intro H. apply orb_true_iff in H as [H|H].
  - apply Nat.ltb_lt in H. lia.
  - apply andb_true_iff in H as [H _]. apply Nat.eqb_eq in H. lia.
Qed.

Lemma search_rank_one q n : search_rank q n = 1 <-> n_name n = q.
Proof.
  unfold search_rank. destruct (String.eqb (n_name n) q) eqn:E.
  - apply String.eqb_eq in E. split; auto.
  - apply String.eqb_neq in E. destruct (String.prefix q (n_name n)); split; intro H;
      try discriminate; contradiction.
Qed.

Lemma search_people_ok q w r w' :
  search_people q w = (Ok r, w') -> r = search_matches q (nodes (store w)).
Proof.
  unfold search_people, store_call. simpl.
  destruct (fault (store w) (CSearchPeople q)); intro H; [discriminate|].
  injection H as <- _. reflexivity.
Qed.

Lemma label_nodes_in label ns n : In n (label_nodes label ns) <-> In (label, n) ns.
Proof.
  unfold label_nodes. rewrite in_map_iff. split.
  - intros [[l n'] [<- Hin]]. apply filter_In in Hin as [Hin Hl].
    simpl in Hl. apply String.eqb_eq in Hl. subst l. exact Hin.
  - intro H. exists (label, n). split; [reflexivity|].
    apply filter_In. split; [exact H|apply String.eqb_refl].
Qed.

Lemma search_matches_in q ns n :
  In n (search_matches q ns) <->
  In ("Person", n) ns /\ (contains (n_name n) q || contains_opt (n_email n) q) = true.
Proof.
  unfold search_matches. split.
  - intro H. apply (Permutation_in _ (sort_nodes_perm _ _)) in H.
    apply in_map_iff in H as [[l n'] [Heq Hin]]. simpl in Heq. subst n'.
    apply filter_In in Hin as [Hin Hf]. simpl in Hf.
    apply andb_true_iff in Hf as [Hl Hc]. apply String.eqb_eq in Hl. subst l. auto.
  - intros [Hin Hc]. apply (Permutation_in _ (Permutation_sym (sort_nodes_perm _ _))).
    apply in_map_iff. exists ("Person", n). split; [reflexivity|].
    apply filter_In. split; [exact Hin|]. simpl. rewrite ?String.eqb_refl. exact Hc.
Qed.

Lemma prefix_self s : String.prefix s s = true.
Proof.
  induction s as [|c s IH]; [reflexivity|]. simpl.
  destruct (ascii_dec c c) as [_|Hc]; [exact IH|contradiction Hc; reflexivity].
Qed.

Lemma sorted_search_head_min q p r :
  Sorted (fun a b => search_le q a b = true) (p :: r) ->
  forall y, In y (p :: r) -> search_rank q p <= search_rank q y.
Proof.
  revert p. induction r as [|p' r IH]; intros p Hs y Hy.
  - destruct Hy as [<-|[]]. lia.
  - destruct Hy as [<-|Hy]; [lia|].
    apply Sorted_inv in Hs as [Hs Hhd]. inversion Hhd as [|? ? Hle]; subst.
    apply search_le_rank in Hle. specialize (IH p' Hs y Hy). lia.
Qed.

(** [search_people(query)] orders its answer by the [CASE] rank (exact
    name, then name prefix, then any other match) and by name within a
    rank; so whenever a Person is named exactly [query], the first result
    is named [query]. *)
Theorem search_people_exact_first (q : string) (w w' : World) (r : list Node)
    (Hrun : search_people q w = (Ok r, w')) :
  Sorted (fun a b => search_le q a b = true) r /\
  ((exists n, In ("Person", n) (nodes (store w)) /\ n_name n = q) ->
   match r with p :: _ => n_name p = q | [] => False end).
Proof.
  rewrite (search_people_ok _ _ _ _ Hrun).
  split; [apply sort_nodes_sorted, search_le_total|].
  intros [n [Hin Hname]].
  assert (Hr : In n (search_matches q (nodes (store w)))).
  { apply search_matches_in. split; [exact Hin|].
    unfold contains. rewrite Hname.
    destruct q as [|c q']; [reflexivity|].
    simpl. destruct (ascii_dec c c) as [_|Hc]; [|contradiction Hc; reflexivity].
    rewrite prefix_self. reflexivity. }
  pose proof (sort_nodes_sorted _ (search_le_total q)
    (map snd (filter (fun ln => String.eqb (fst ln) "Person" &&
       (contains (n_name (snd ln)) q || contains_opt (n_email (snd ln)) q))
       (nodes (store w))))) as Hs.
  fold (search_matches q (nodes (store w))) in Hs.
  destruct (search_matches q (nodes (store w))) as [|p r'] eqn:E; [destruct Hr|].
  pose proof (sorted_search_head_min q p r' Hs n Hr) as Hmin.
  assert (Hn1 : search_rank q n = 1) by (apply search_rank_one; exact Hname).
  assert (Hp1 : search_rank q p = 1).
  { unfold search_rank in *. destruct (String.eqb (n_name p) q);
      [reflexivity|destruct (String.prefix q (n_name p)); lia]. }
  apply search_rank_one, Hp1.
Qed.

Lemma search_people_exact_first_witness :
  search_people "Alice" fx_search_world
    = (Ok fx_search_result, snd (search_people "Alice" fx_search_world)) /\
  map n_name fx_search_result = ["Alice"; "Alice B"; "Mary Alice"] /\
  (Sorted (fun a b => search_le "Alice" a b = true) fx_search_result /\
   ((exists n, In ("Person", n) (nodes (store fx_search_world)) /\ n_name n = "Alice") ->
    match fx_search_result with p :: _ => n_name p = "Alice" | [] => False end)).
Proof.
  assert (H : search_people "Alice" fx_search_world
              = (Ok fx_search_result, snd (search_people "Alice" fx_search_world)))
    by (vm_compute; reflexivity).
  split; [exact H|]. split; [vm_compute; reflexivity|].
  exact (search_people_exact_first "Alice" fx_search_world _ fx_search_result H).
Defined.

(** ** MERGE, link and unlink *)

Lemma merge_match_key label a b e :
  merge_match label a b e = true <-> edge_key e = (label, a, b).
Proof.
  unfold merge_match, edge_key. rewrite !andb_true_iff, !String.eqb_eq. split.
  - intros [[-> ->] ->]. reflexivity.
  - intro H. injection H as -> -> ->. auto.
Qed.

Lemma merge_edge_present label a b sets es :
  In (label, a, b) (map edge_key es) ->
  map edge_key (merge_edge label a b sets es) = map edge_key es.
Proof.
  induction es as [|e es IH]; simpl; [intros []|]. intro H.
  destruct (String.eqb (e_label e) label && String.eqb (e_from e) a
            && String.eqb (e_to e) b) eqn:E.
  - simpl. f_equal. symmetry. apply merge_match_key, E.
  - simpl. f_equal. apply IH. destruct H as [H|H]; [|exact H].
    exfalso. apply merge_match_key in H. unfold merge_match in H. congruence.
Qed.

Lemma merge_edge_absent label a b sets es :
  (forall e, In e es -> merge_match label a b e = false) ->
  merge_edge label a b sets es = es ++ [mkEdge label a b sets].
Proof.
  induction es as [|e es IH]; simpl; intro H; [reflexivity|].
  pose proof (H e (or_introl eq_refl)) as He. unfold merge_match in He. rewrite He.
  f_equal. apply IH. intros e' He'. apply H. right. exact He'.
Qed.

Lemma merge_edge_keys_nodup label a b sets es :
  NoDup (map edge_key es) ->
  NoDup (map edge_key (merge_edge label a b sets es)) /\
  In (label, a, b) (map edge_key (merge_edge label a b sets es)).
Proof.
  intro Hd.
  destruct (in_dec edge_key_dec (label, a, b) (map edge_key es)) as [Hin|Hin].
  - rewrite merge_edge_present by exact Hin. auto.
  - rewrite merge_edge_absent.
    + rewrite map_app. simpl. split.
      * apply NoDup_app; auto; [repeat constructor; intros []|].
        intros x Hx [<-|[]]. contradiction.
      * apply in_or_app. right. left. reflexivity.
    + intros e He. destruct (merge_match label a b e) eqn:E; [|reflexivity].
      exfalso. apply Hin. apply merge_match_key in E. rewrite <- E.
      apply in_map, He.
Qed.

Lemma link_ok label la lb a b sets w r w' :
  link label la lb a b sets w = (Ok r, w') ->
  nodes (store w') = nodes (store w) /\ svc w' = svc w /\
  r = node_exists la a (nodes (store w)) && node_exists lb b (nodes (store w)) /\
  edges (store w') = if r then merge_edge label a b sets (edges (store w)) else edges (store w).
Proof.
  unfold link, store_call. simpl.
  destruct (fault (store w) (CLink label a b)); intro H; [discriminate|].
  destruct (node_exists la a (nodes (store w)) && node_exists lb b (nodes (store w)));
    injection H as <- <-; simpl; auto.
Qed.

(** [MATCH ... MATCH ... MERGE (a)-[r:LABEL]->(b) SET ...] (the [link_*]
    functions and [create_person_relationship]), when the store answers:
    the nodes are untouched; the result is true exactly when both endpoint
    nodes exist with their labels; when it is false no edge changes; when
    it is true an edge LABEL from [a] to [b] exists afterwards; and the
    call never creates a second edge with the same label and endpoints. *)
Theorem link_merge_unique (label la lb a b : string) (sets : Props) (w w' : World)
    (r : bool) (Hrun : link label la lb a b sets w = (Ok r, w')) :
  nodes (store w') = nodes (store w) /\
  r = node_exists la a (nodes (store w)) && node_exists lb b (nodes (store w)) /\
  (r = false -> edges (store w') = edges (store w)) /\
  (r = true -> In (label, a, b) (map edge_key (edges (store w')))) /\
  (NoDup (map edge_key (edges (store w))) -> NoDup (map edge_key (edges (store w')))).
Proof.
  destruct (link_ok _ _ _ _ _ _ _ _ _ Hrun) as (Hn & _ & Hr & He).
  split; [exact Hn|]. split; [exact Hr|].
  split; [intros ->; exact He|].
  split.
  - intros ->. rewrite He.
    destruct (in_dec edge_key_dec (label, a, b) (map edge_key (edges (store w)))) as [Hin|Hin].
    + rewrite merge_edge_present by exact Hin. exact Hin.
    + rewrite merge_edge_absent.
      * rewrite map_app. apply in_or_app. right. left. reflexivity.
      * intros e' He'. destruct (merge_match label a b e') eqn:E; [|reflexivity].
        exfalso. apply Hin. apply merge_match_key in E. rewrite <- E. apply in_map, He'.
  - intro Hd. rewrite He. destruct r; [apply merge_edge_keys_nodup, Hd|exact Hd].
Qed.

Lemma link_merge_unique_witness :
  let R := link "KNOWS" "Person" "Person" "p1" "p2" [] fx_alice_bob in
  R = (Ok true, snd R) /\
  (nodes (store (snd R)) = nodes (store fx_alice_bob) /\
   true = node_exists "Person" "p1" (nodes (store fx_alice_bob))
          && node_exists "Person" "p2" (nodes (store fx_alice_bob)) /\
   (true = false -> edges (store (snd R)) = edges (store fx_alice_bob)) /\
   (true = true -> In ("KNOWS", "p1", "p2") (map edge_key (edges (store (snd R))))) /\
   (NoDup (map edge_key (edges (store fx_alice_bob))) ->
    NoDup (map edge_key (edges (store (snd R)))))).
Proof.
  intro R. assert (H : R = (Ok true, snd R)) by (vm_compute; reflexivity).
  split; [exact H|].
  exact (link_merge_unique "KNOWS" "Person" "Person" "p1" "p2" [] fx_alice_bob (snd R) true H).
Defined.

(** ** Deleting a person *)

Lemma find_by_id_count label id ns :
  (0 <? length (filter (fun ln => String.eqb (fst ln) label && String.eqb (n_id (snd ln)) id) ns))%nat
  = match find_by_id label id ns with Some _ => true | None => false end.
Proof.
  induction ns as [|[l n] ns IH]; [reflexivity|]. simpl.
  destruct (String.eqb l label && String.eqb (n_id n) id); [reflexivity|exact IH].
Qed.

Lemma find_by_id_in label id ns n :
  find_by_id label id ns = Some n -> In (label, n) ns /\ n_id n = id.
Proof.
  induction ns as [|[l n'] ns IH]; simpl; [discriminate|].
  destruct (String.eqb l label && String.eqb (n_id n') id) eqn:E.
  - intro H; injection H as <-. apply andb_true_iff in E as [E1 E2].
    apply String.eqb_eq in E1, E2. subst. auto.
  - intro H. destruct (IH H). auto.
Qed.

Lemma find_by_id_filter label id ns :
  find_by_id label id
    (filter (fun ln => negb (String.eqb (fst ln) label && String.eqb (n_id (snd ln)) id)) ns)
  = None.
Proof.
  induction ns as [|[l n] ns IH]; [reflexivity|]. simpl.
  destruct (String.eqb l label && String.eqb (n_id n) id) eqn:E; simpl; [exact IH|].
  rewrite E. exact IH.
Qed.

Lemma node_exists_find label id ns :
  node_exists label id ns = match find_by_id label id ns with Some _ => true | None => false end.
Proof.
  induction ns as [|[l n] ns IH]; [reflexivity|]. unfold node_exists in *. simpl.
  destruct (String.eqb l label && String.eqb (n_id n) id); [reflexivity|exact IH].
Qed.

(** [delete_person(person_id)] ([DETACH DELETE]): it answers true exactly
    when a Person with that id existed; afterwards no Person has that id,
    every other node is kept, and (when something was deleted) no edge
    touches the id while all other edges are kept; so a later
    [link_person_to_topic] from that id matches nothing and answers false. *)
Theorem delete_person_detach (person_id : string) (s : Store) :
  fst (delete_person person_id s)
    = match get_person person_id s with Some _ => true | None => false end /\
  get_person person_id (snd (delete_person person_id s)) = None /\
  (forall ln, In ln (nodes (snd (delete_person person_id s))) <->
              In ln (nodes s) /\ is_person_id person_id ln = false) /\
  (forall e, In e (edges (snd (delete_person person_id s))) <->
             In e (edges s) /\ (fst (delete_person person_id s) = false \/
                                touches person_id e = false)) /\
  (forall topic_id sv w' r,
     link_person_to_topic person_id topic_id
       (mkWorld (snd (delete_person person_id s)) sv) = (Ok r, w') -> r = false).
Proof.
  assert (Hc : fst (delete_person person_id s)
               = match get_person person_id s with Some _ => true | None => false end)
    by (unfold delete_person, get_person, is_person_id; simpl; apply find_by_id_count).
  assert (Hg : get_person person_id (snd (delete_person person_id s)) = None)
    by (unfold delete_person, get_person, is_person_id; simpl; apply find_by_id_filter).
  split; [exact Hc|]. split; [exact Hg|].
  split; [|split].
  - intro ln. unfold delete_person. simpl. rewrite filter_In, negb_true_iff. tauto.
  - intro e. unfold delete_person in *. simpl in *.
    destruct (Nat.ltb 0 (length (filter (is_person_id person_id) (nodes s)))).
    + rewrite filter_In, negb_true_iff. split; [intros [H1 H2]; auto|].
      intros [H1 [H2|H2]]; [discriminate|auto].
    + split; [auto|tauto].
  - intros topic_id sv w' r H.
    destruct (link_ok _ _ _ _ _ _ _ _ _ H) as (_ & _ & Hr & _).
    rewrite Hr. cbn [store]. rewrite node_exists_find. unfold get_person in Hg. rewrite Hg.
    reflexivity.
Qed.

Lemma delete_person_detach_witness :
  let s := store fx_alice_bob in
  let s' := with_edges [mkEdge "KNOWS" "p1" "p2" []; mkEdge "KNOWS" "p2" "p3" []] s in
  fst (delete_person "p1" s') = true /\
  edges (snd (delete_person "p1" s')) = [mkEdge "KNOWS" "p2" "p3" []] /\
  (fst (delete_person "p1" s')
     = match get_person "p1" s' with Some _ => true | None => false end /\
   get_person "p1" (snd (delete_person "p1" s')) = None /\
   (forall ln, In ln (nodes (snd (delete_person "p1" s'))) <->
               In ln (nodes s') /\ is_person_id "p1" ln = false) /\
   (forall e, In e (edges (snd (delete_person "p1" s'))) <->
              In e (edges s') /\ (fst (delete_person "p1" s') = false \/
                                  touches "p1" e = false)) /\
   (forall topic_id sv w' r,
      link_person_to_topic "p1" topic_id (mkWorld (snd (delete_person "p1" s')) sv)
      = (Ok r, w') -> r = false)).
Proof.
  intros s s'. split; [vm_compute; reflexivity|]. split; [vm_compute; reflexivity|].
  exact (delete_person_detach "p1" s').
Defined.

Lemma merge_edge_has_key label a b sets es :
  In (label, a, b) (map edge_key (merge_edge label a b sets es)).
Proof.
  induction es as [|e es IH]; simpl; [left; reflexivity|].
  destruct (String.eqb (e_label e) label && String.eqb (e_from e) a
            && String.eqb (e_to e) b); simpl; [left; reflexivity|right; exact IH].
Qed.

Lemma filter_keep {A} (f : A -> bool) l : (forall x, In x l -> f x = true) -> filter f l = l.
Proof.
  induction l as [|x l IH]; simpl; intro H; [reflexivity|].
  rewrite (H x (or_introl eq_refl)). f_equal. apply IH. intros y Hy. apply H. right. exact Hy.
Qed.

(** ** Linking a person to a topic *)

(** [link_person_to_topic] then [unlink_person_from_topic], for a pair not
    yet linked: the unlink answers true and the edges are back to what they
    were before the link. *)
Theorem link_unlink_topic_roundtrip (person_id topic_id : string) (w w1 : World)
    (Hlink : link_person_to_topic person_id topic_id w = (Ok true, w1))
    (Hfresh : forall e, In e (edges (store w)) -> is_interest person_id topic_id e = false) :
  unlink_person_from_topic person_id topic_id (store w1)
  = (true, with_edges (edges (store w)) (store w1)).
Proof.
  destruct (link_ok _ _ _ _ _ _ _ _ _ Hlink) as (Hn & _ & Hr & He).
  rewrite merge_edge_absent in He by exact Hfresh.
  unfold unlink_person_from_topic. rewrite Hn, <- Hr, He.
  rewrite !filter_app.
  rewrite (filter_keep (fun e => negb (is_interest person_id topic_id e)) (edges (store w))).
  2: { intros e Hin. rewrite (Hfresh e Hin). reflexivity. }
  assert (Hz : filter (is_interest person_id topic_id) (edges (store w)) = []).
  { clear - Hfresh. induction (edges (store w)) as [|e es IH]; [reflexivity|]. simpl.
    rewrite (Hfresh e (or_introl eq_refl)). apply IH. intros e' H. apply Hfresh. right. exact H. }
  rewrite Hz. unfold is_interest. simpl. rewrite !String.eqb_refl. simpl.
  rewrite app_nil_r. reflexivity.
Qed.

(** After [link_person_to_topic(person_id, topic_id)] answered true, the
    person is among [get_people_interested_in_topic(topic_id)]. *)
Theorem link_topic_then_listed (person_id topic_id : string) (w w1 : World) (n : Node)
    (Hlink : link_person_to_topic person_id topic_id w = (Ok true, w1))
    (Hp : get_person person_id (store w) = Some n) :
  In n (get_people_interested_in_topic topic_id (store w1)).
Proof.
  destruct (link_ok _ _ _ _ _ _ _ _ _ Hlink) as (Hn & _ & Hr & He).
  symmetry in Hr. apply andb_true_iff in Hr as [_ Ht].
  unfold get_people_interested_in_topic. rewrite Hn, Ht.
  apply (Permutation_in _ (Permutation_sym (sort_nodes_perm _ _))).
  apply find_by_id_in in Hp as [Hin Hid].
  apply in_flat_map. exists n. split; [apply label_nodes_in; exact Hin|].
  pose proof (merge_edge_has_key "INTERESTED_IN" person_id topic_id []
                (edges (store w))) as Hk.
  rewrite <- He in Hk. apply in_map_iff in Hk as [e [Hkey He1]].
  apply in_map_iff. exists e. split; [reflexivity|].
  apply filter_In. split; [exact He1|].
  rewrite Hid. apply (proj2 (merge_match_key _ _ _ e)) in Hkey. exact Hkey.
Qed.

Lemma link_unlink_topic_roundtrip_witness :
  let R := link_person_to_topic "p1" "t1" fx_topic_world in
  R = (Ok true, snd R) /\
  (forall e, In e (edges (store fx_topic_world)) -> is_interest "p1" "t1" e = false) /\
  unlink_person_from_topic "p1" "t1" (store (snd R))
  = (true, with_edges (edges (store fx_topic_world)) (store (snd R))).
Proof.
  intro R. assert (H : R = (Ok true, snd R)) by (vm_compute; reflexivity).
  assert (Hf : forall e, In e (edges (store fx_topic_world)) -> is_interest "p1" "t1" e = false)
    by (intros e []).
  split; [exact H|]. split; [exact Hf|].
  exact (link_unlink_topic_roundtrip "p1" "t1" fx_topic_world (snd R) H Hf).
Defined.

Lemma link_topic_then_listed_witness :
  let R := link_person_to_topic "p1" "t1" fx_topic_world in
  R = (Ok true, snd R) /\
  get_person "p1" (store fx_topic_world) = Some (mkNode "p1" "Alice" None) /\
  In (mkNode "p1" "Alice" None) (get_people_interested_in_topic "t1" (store (snd R))).
Proof.
  intro R. assert (H : R = (Ok true, snd R)) by (vm_compute; reflexivity).
  assert (Hp : get_person "p1" (store fx_topic_world) = Some (mkNode "p1" "Alice" None))
    by reflexivity.
  split; [exact H|]. split; [exact Hp|].
  exact (link_topic_then_listed "p1" "t1" fx_topic_world (snd R) _ H Hp).
Defined.

(** ** Setting up the main person *)

Lemma find_by_name_in label name ns n :
  find_by_name label name ns = Some n -> In (label, n) ns /\ n_name n = name.
Proof.
  induction ns as [|[l n'] ns IH]; simpl; [discriminate|].
  destruct (String.eqb l label && String.eqb (n_name n') name) eqn:E.
  - intro H; injection H as <-. apply andb_true_iff in E as [E1 E2].
    apply String.eqb_eq in E1, E2. subst. auto.
  - intro H. destruct (IH H). auto.
Qed.

Lemma contains_empty s : contains s "" = true.
Proof. destruct s; reflexivity. Qed.

(** [_ensure_main_person_exists] with no main person id: when it returns,
    the id points to a [Person] node of the store it leaves, and the main
    person's name is that node's name (the exact match, the first fuzzy
    match, or the node it just created). *)
Theorem main_person_set_up (w w' : World)
    (Hid : truthy (main_person_id (svc w)) = false)
    (Hrun : ensure_main_person_exists w = (Ok tt, w')) :
  exists n, In ("Person", n) (nodes (store w')) /\
    main_person_id (svc w') = Some (n_id n) /\
    main_person_name (svc w') = n_name n.
Proof.
  revert Hrun. unfold ensure_main_person_exists, bind, get_svc. rewrite Hid.
  unfold get_person_by_name, get_by_name, store_call. simpl.
  destruct (fault (store w) (CGetByName "Person" (main_person_name (svc w))));
    [discriminate|].
  destruct (find_by_name "Person" (main_person_name (svc w)) (nodes (store w)))
    as [p|] eqn:Ef.
  - unfold put_svc. intro H; injection H as <-. simpl.
    destruct (find_by_name_in _ _ _ _ Ef) as [Hin Hn].
    exists p. auto.
  - unfold search_people, store_call. simpl.
    destruct (fault (store w) (CSearchPeople (main_person_name (svc w))));
      [discriminate|].
    destruct (search_matches (main_person_name (svc w)) (nodes (store w)))
      as [|p ps] eqn:Es.
    + destruct (valid_len 1 200 (main_person_name (svc w))); [|discriminate].
      unfold create_node, store_call. simpl.
      destruct (fault (store w) (CCreate "Person" (main_person_name (svc w))));
        [discriminate|].
      unfold put_svc. intro H; injection H as <-. simpl.
      eexists. split; [apply in_or_app; right; left; reflexivity|].
      split; reflexivity.
    + unfold put_svc. intro H; injection H as <-. simpl.
      assert (Hp : In p (search_matches (main_person_name (svc w)) (nodes (store w))))
        by (rewrite Es; left; reflexivity).
      apply search_matches_in in Hp as [Hp _]. exists p. auto.
Qed.

(** [_ensure_main_person_exists] with an empty main person name and no id
    never creates a node (the name fails the length check). The fuzzy
    search for [""] matches every person, so a normal return has adopted
    the id of a Person node of the store, and the [ValidationError] is
    raised only when the store holds no person. When no store call fails,
    it returns normally exactly when the store holds a person. *)
Theorem main_person_empty_name (w w' : World) (r : Res unit)
    (Hname : main_person_name (svc w) = "")
    (Hid : truthy (main_person_id (svc w)) = false)
    (Hrun : ensure_main_person_exists w = (r, w')) :
  nodes (store w') = nodes (store w) /\
  (r = Ok tt -> exists n, In ("Person", n) (nodes (store w)) /\
                          main_person_id (svc w') = Some (n_id n)) /\
  (r = Err ValidationError -> label_nodes "Person" (nodes (store w)) = []) /\
  ((forall c, fault (store w) c = false) ->
   (label_nodes "Person" (nodes (store w)) = [] -> r = Err ValidationError) /\
   (label_nodes "Person" (nodes (store w)) <> [] -> r = Ok tt)).
Proof.
  assert (Hall : forall n, In ("Person", n) (nodes (store w)) ->
            In n (search_matches "" (nodes (store w)))).
  { intros n Hn. apply search_matches_in. rewrite contains_empty. auto. }
  assert (Hnil : search_matches "" (nodes (store w)) = [] ->
                 label_nodes "Person" (nodes (store w)) = []).
  { intro Hs. destruct (label_nodes "Person" (nodes (store w))) as [|n ns] eqn:E;
      [reflexivity|].
    assert (Hn : In n (label_nodes "Person" (nodes (store w)))) by (rewrite E; left; auto).
    apply label_nodes_in, Hall in Hn. rewrite Hs in Hn. contradiction. }
  assert (Hcons : label_nodes "Person" (nodes (store w)) = [] ->
                  search_matches "" (nodes (store w)) = []).
  { intro Hl. destruct (search_matches "" (nodes (store w))) as [|n ns] eqn:E;
      [reflexivity|].
    assert (Hn : In n (search_matches "" (nodes (store w)))) by (rewrite E; left; auto).
    apply search_matches_in in Hn as [Hn _]. apply label_nodes_in in Hn.
    rewrite Hl in Hn. contradiction. }
  revert Hrun. unfold ensure_main_person_exists, bind, get_svc. rewrite Hid, Hname.
  unfold get_person_by_name, get_by_name, store_call. simpl.
  destruct (fault (store w) (CGetByName "Person" "")) eqn:F1.
  { intro H; injection H as <- <-. simpl.
    split; [reflexivity|]. split; [discriminate|]. split; [discriminate|].
    intro Hf. rewrite Hf in F1. discriminate. }
  destruct (find_by_name "Person" "" (nodes (store w))) as [p|] eqn:Ef.
  - unfold put_svc. intro H; injection H as <- <-. simpl.
    destruct (find_by_name_in _ _ _ _ Ef) as [Hin _].
    split; [reflexivity|]. split; [intros _; exists p; auto|].
    split; [discriminate|].
    intros _. split; [|reflexivity].
    intro Hl. apply label_nodes_in in Hin. rewrite Hl in Hin. contradiction.
  - unfold search_people, store_call. simpl.
    destruct (fault (store w) (CSearchPeople "")) eqn:F2.
    { intro H; injection H as <- <-. simpl.
      split; [reflexivity|]. split; [discriminate|]. split; [discriminate|].
      intro Hf. rewrite Hf in F2. discriminate. }
    destruct (search_matches "" (nodes (store w))) as [|p ps] eqn:Es.
    + simpl. unfold raise. intro H; injection H as <- <-. simpl.
      split; [reflexivity|]. split; [discriminate|].
      split; [intros _; apply Hnil; reflexivity|].
      intros _. split; [reflexivity|]. intro Hne. contradiction Hne. apply Hnil. reflexivity.
    + unfold put_svc. intro H; injection H as <- <-. simpl.
      assert (Hp : In p (search_matches "" (nodes (store w)))) by (rewrite Es; left; reflexivity).
      apply search_matches_in in Hp as [Hp _].
      split; [reflexivity|]. split; [intros _; exists p; auto|].
      split; [discriminate|].
      intros _. split; [|reflexivity].
      intro Hl. pose proof (Hcons Hl) as E'. rewrite ?Es in E'. discriminate.
Qed.

Lemma main_person_set_up_witness :
  let R := ensure_main_person_exists fx_fuzzy_alice in
  R = (Ok tt, snd R) /\
  In ("Person", mkNode "p7" "Alice Smith" None) (nodes (store (snd R))) /\
  main_person_id (svc (snd R)) = Some "p7" /\
  main_person_name (svc (snd R)) = "Alice Smith".
Proof.
  intro R. assert (H : R = (Ok tt, snd R)) by (vm_compute; reflexivity).
  split; [exact H|].
  destruct (main_person_set_up fx_fuzzy_alice (snd R) eq_refl H) as (n & Hin & Hid & Hn).
  vm_compute in Hin, Hid, Hn. vm_compute.
  destruct Hin as [Hin|[]]. injection Hin as <-. auto.
Defined.

Lemma main_person_empty_name_witness :
  let R := ensure_main_person_exists fx_empty_name_world in
  fst R = Err ValidationError /\ nodes (store (snd R)) = nodes (store fx_empty_name_world).
Proof.
  intro R.
  destruct (main_person_empty_name fx_empty_name_world (snd R) (fst R) eq_refl eq_refl
              (surjective_pairing _)) as (Hn & _ & _ & H4).
  split; [apply (proj1 (H4 (fun _ => eq_refl))); reflexivity|exact Hn].
Defined.

(** ** What the person resolver returns *)

(** [_resolve_person_entity]: a [use_existing] resolution it builds itself
    (the ones without a reasoning, i.e. not copied from the disambiguation
    chain) carries either the main person id or the id of a [Person] node of
    the store. *)
Theorem resolve_person_existing_ids (e : EntityMention) (note : string) (w w' : World)
    (r : Resolution) (Hrun : resolve_person_entity e note w = (Ok r, w'))
    (Ha : r_action r = "use_existing") (Hreason : r_reasoning r = None) :
  r_existing_id r = main_person_id (svc w) \/
  exists n, In ("Person", n) (nodes (store w)) /\ r_existing_id r = Some (n_id n).
Proof.
  revert Hrun. unfold resolve_person_entity, bind, get_svc.
  destruct (String.eqb (lower (em_name e)) (lower (main_person_name (svc w)))).
  { unfold ret. intro H; injection H as <- _. left; reflexivity. }
  unfold get_person_by_name, get_by_name, store_call. simpl.
  destruct (fault (store w) (CGetByName "Person" (em_name e))); [discriminate|].
  destruct (find_by_name "Person" (em_name e) (nodes (store w))) as [p|] eqn:Ef.
  { unfold ret; intro H; injection H as <- _. right. exists p.
    split; [exact (proj1 (find_by_name_in _ _ _ _ Ef))|reflexivity]. }
  unfold search_people, store_call. simpl.
  destruct (fault (store w) (CSearchPeople (em_name e))); [discriminate|].
  destruct (search_matches (em_name e) (nodes (store w))) as [|p [|p2 ps]] eqn:Es.
  - unfold ret; intro H; injection H as <- _. discriminate Ha.
  - unfold ret; intro H; injection H as <- _. right. exists p. split; [|reflexivity].
    assert (Hp : In p (search_matches (em_name e) (nodes (store w))))
      by (rewrite Es; left; reflexivity).
    exact (proj1 (proj1 (search_matches_in _ _ _) Hp)).
  - destruct (disambiguation_chain (svc w)) as [chain|]; [|discriminate].
    destruct (chain (em_name e) note (p :: p2 :: ps)) as [n c a s cf w0|d]; simpl.
    + destruct (DisambiguationResult_of_dict n c a s cf w0) as [d|]; [|discriminate].
      intro H; injection H as <- _. discriminate Hreason.
    + intro H; injection H as <- _. discriminate Hreason.
Qed.

(** ** Ensure-exists: ids and skipped entities *)

Lemma create_entity_some key r m w id m1 w1 :
  create_entity_and_update_resolution key r m w = (Ok (Some id, m1), w1) ->
  exists label lo hi,
    label_of_type (em_entity_type (r_entity r)) = Some (label, lo, hi) /\
    In (label, mkNode id (em_name (r_entity r)) None) (nodes (store w1)).
Proof.
  rewrite create_entity_spec.
  destruct (label_of_type (em_entity_type (r_entity r))) as [[[label lo] hi]|];
    [|discriminate].
  destruct (valid_len lo hi (em_name (r_entity r))); [|discriminate].
  simpl. destruct (fault _ _); [discriminate|].
  intro H; injection H as <- _ <-. exists label, lo, hi. split; [reflexivity|].
  simpl. apply in_or_app. right. left. reflexivity.
Qed.

(** [_ensure_entity_exists] on a [use_existing] resolution: an id it
    returns is the id of a node of the store it leaves, with the label of
    the entity type and the entity's name; either the node found by the
    name lookup or the one it just created. *)
Theorem ensure_use_existing_verified (k : string) (m : ResMap) (r : Resolution)
    (w w' : World) (id : string) (m' : ResMap)
    (Hk : dict_get k m = Some r) (Ha : r_action r = "use_existing")
    (Hrun : ensure_entity_exists k m w = (Ok (Some id, m'), w')) :
  exists label lo hi n,
    label_of_type (em_entity_type (r_entity r)) = Some (label, lo, hi) /\
    In (label, n) (nodes (store w')) /\ n_id n = id /\ n_name n = em_name (r_entity r).
Proof.
  assert (Hc : forall w0, create_entity_and_update_resolution k r m w0 = (Ok (Some id, m'), w') ->
    exists label lo hi n,
      label_of_type (em_entity_type (r_entity r)) = Some (label, lo, hi) /\
      In (label, n) (nodes (store w')) /\ n_id n = id /\ n_name n = em_name (r_entity r)).
  { intros w0 H. destruct (create_entity_some _ _ _ _ _ _ _ H) as (label & lo & hi & Hl & Hin).
    exists label, lo, hi, (mkNode id (em_name (r_entity r)) None). auto. }
  revert Hrun. unfold ensure_entity_exists. rewrite Hk, Ha. cbn -[create_entity_and_update_resolution].
  destruct (truthy (r_existing_id r)); [|apply Hc].
  unfold bind.
  destruct (label_of_type (em_entity_type (r_entity r))) as [[[label lo] hi]|] eqn:El;
    [|apply Hc].
  unfold get_by_name, store_call. cbn -[create_entity_and_update_resolution].
  destruct (fault (store w) (CGetByName label (em_name (r_entity r)))); [discriminate|].
  destruct (find_by_name label (em_name (r_entity r)) (nodes (store w))) as [n|] eqn:Ef;
    [|apply Hc].
  unfold ret. intro H; injection H as <- _ <-.
  destruct (find_by_name_in _ _ _ _ Ef) as [Hin Hn].
  exists label, lo, hi, n. simpl. auto.
Qed.

(** [_ensure_entity_exists] on an entity to be created (a [create_new] or
    [use_existing] resolution without an id) whose type has no node label,
    or whose name fails the length bounds of the model's name field: no
    store call, no id, and the map unchanged. *)
Theorem ensure_invalid_entity_skipped (k : string) (m : ResMap) (r : Resolution) (w : World)
    (Hk : dict_get k m = Some r)
    (Ha : r_action r = "create_new" \/ r_action r = "use_existing")
    (Hid : truthy (r_existing_id r) = false)
    (Hbad : label_of_type (em_entity_type (r_entity r)) = None \/
            exists label lo hi,
              label_of_type (em_entity_type (r_entity r)) = Some (label, lo, hi) /\
              valid_len lo hi (em_name (r_entity r)) = false) :
  ensure_entity_exists k m w = (Ok (None, m), w).
Proof.
  assert (Hc : create_entity_and_update_resolution k r m w = (Ok (None, m), w)).
  { rewrite create_entity_spec.
    destruct Hbad as [->|(label & lo & hi & -> & ->)]; reflexivity. }
  unfold ensure_entity_exists. rewrite Hk.
  destruct Ha as [Ha|Ha]; rewrite Ha; cbn -[create_entity_and_update_resolution];
    rewrite Hid; exact Hc.
Qed.

Lemma resolve_person_existing_ids_witness :
  let R := resolve_person_entity (fx_entity "Smith" "person") "" fx_fuzzy_alice in
  let r := ok_or (main_person_resolution (svc fx_fuzzy_alice)) (fst R) in
  R = (Ok r, snd R) /\ r_action r = "use_existing" /\ r_reasoning r = None /\
  (r_existing_id r = main_person_id (svc fx_fuzzy_alice) \/
   exists n, In ("Person", n) (nodes (store fx_fuzzy_alice)) /\ r_existing_id r = Some (n_id n)).
Proof.
  intros R r. assert (H : R = (Ok r, snd R)) by (vm_compute; reflexivity).
  assert (Ha : r_action r = "use_existing") by (vm_compute; reflexivity).
  assert (Hr : r_reasoning r = None) by (vm_compute; reflexivity).
  split; [exact H|]. split; [exact Ha|]. split; [exact Hr|].
  exact (resolve_person_existing_ids _ _ _ _ _ H Ha Hr).
Defined.

Lemma ensure_use_existing_verified_witness :
  let R := ensure_entity_exists "Zoe" fx_stale_zoe (fx_alice_only no_fault) in
  exists id m', R = (Ok (Some id, m'), snd R) /\
  exists label lo hi n,
    label_of_type "person" = Some (label, lo, hi) /\
    In (label, n) (nodes (store (snd R))) /\ n_id n = id /\ n_name n = "Zoe".
Proof.
  intro R. exists (uuid_of 0), (snd (ok_or (None, []) (fst R))).
  assert (H : R = (Ok (Some (uuid_of 0), snd (ok_or (None, []) (fst R))), snd R))
    by (vm_compute; reflexivity).
  split; [exact H|].
  exact (ensure_use_existing_verified "Zoe" fx_stale_zoe
           (mkResolution "use_existing" (fx_entity "Zoe" "person") (Some "p9") (Some conf1) None)
           _ _ _ _ eq_refl eq_refl H).
Defined.

Lemma ensure_invalid_entity_skipped_witness :
  valid_len 1 100 fx_long_name = false /\
  ensure_entity_exists fx_long_name [(fx_long_name, fx_long_topic)] fx_alice_bob
  = (Ok (None, [(fx_long_name, fx_long_topic)]), fx_alice_bob).
Proof.
  split; [vm_compute; reflexivity|].
  apply (ensure_invalid_entity_skipped _ _ fx_long_topic).
  - vm_compute; reflexivity.
  - left; reflexivity.
  - reflexivity.
  - right. exists "Topic", 1, 100. split; vm_compute; reflexivity.
Defined.

(** ** Entities created before validation lose their relationships *)

Lemma fp_weaken {A} (P Q : Call -> Prop) (m : M A) :
  footprint P m -> (forall c, P c -> Q c) -> footprint Q m.
Proof.
  intros H HPQ w. destruct (H w) as (Hs & Hf & new & Hl & Hp).
  repeat split; auto. exists new. split; [exact Hl|].
  eapply Forall_impl; [exact HPQ|exact Hp].
Qed.

Lemma fp_any_create_node label name : footprint (fun _ => True) (create_node label name).
Proof. apply fp_store_call; simpl; auto. Qed.

Lemma fp_any_get_by_name label name : footprint (fun _ => True) (get_by_name label name).
Proof. apply fp_store_call; simpl; auto. Qed.

#[local] Hint Resolve fp_any_create_node fp_any_get_by_name : footprint.

Lemma fp_any_create_entity k r m :
  footprint (fun _ => True) (create_entity_and_update_resolution k r m).
Proof. unfold create_entity_and_update_resolution. fp_step. Qed.

#[local] Hint Resolve fp_any_create_entity : footprint.

Lemma fp_any_ensure k m : footprint (fun _ => True) (ensure_entity_exists k m).
Proof. unfold ensure_entity_exists. fp_step. Qed.

#[local] Hint Resolve fp_any_ensure : footprint.

Lemma fp_any_prematerialize ks m : footprint (fun _ => True) (prematerialize ks m).
Proof.
  revert m; induction ks as [|k ks IH]; intro m; simpl; [apply fp_ret|].
  destruct (dict_get k m) as [r|]; [|apply IH].
  destruct (String.eqb (r_action r) "create_new" && negb (truthy (r_existing_id r)));
    [|apply IH].
  apply fp_bind; [apply fp_any_ensure|intro; apply IH].
Qed.

Lemma fp_any_validate_each rels m : footprint (fun _ => True) (validate_each rels m).
Proof.
  revert m; induction rels as [|rel rels IH]; intro m; simpl; [apply fp_ret|].
  destruct (dict_get (rm_from_entity rel) m); [|apply IH].
  destruct (dict_get (rm_to_entity rel) m); [|apply IH].
  apply fp_bind; [apply fp_any_ensure|intros [o1 m2]].
  apply fp_bind; [apply fp_any_ensure|intros [o2 m3]].
  cbn [fst snd]. destruct o1 as [a|]; [|apply IH]. destruct o2 as [b|]; [|apply IH].
  destruct (negb (String.eqb a "") && negb (String.eqb b "")); [|apply IH].
  apply fp_bind; [apply IH|intro; apply fp_ret].
Qed.

Lemma fp_any_validate_relationships rels m :
  footprint (fun _ => True) (validate_relationships rels m).
Proof.
  unfold validate_relationships.
  apply fp_bind; [apply fp_any_prematerialize|intro; apply fp_any_validate_each].
Qed.

Lemma fp_any_resolve_validate_commit es rs note :
  footprint (fun _ => True) (resolve_validate_commit es rs note).
Proof.
  unfold resolve_validate_commit.
  apply fp_bind; [eapply fp_weaken; [apply fp_resolve_ambiguous_entities|auto]|intro].
  apply fp_bind; [apply fp_any_validate_relationships|intro].
  apply fp_bind; [eapply fp_weaken; [apply fp_create_graph_entities|auto]|intro].
  apply fp_ret.
Qed.

Lemma footprint_fault {A} P (m : M A) w r w' :
  footprint P m -> m w = (r, w') -> fault (store w') = fault (store w).
Proof. intros H E. destruct (H w) as [_ [Hf _]]. rewrite E in Hf. exact Hf. Qed.

Lemma ensure_created_noop k m w r :
  dict_get k m = Some r -> r_action r = "created" ->
  ensure_entity_exists k m w = (Ok (None, m), w).
Proof. intros Hk Ha. unfold ensure_entity_exists. rewrite Hk, Ha. reflexivity. Qed.

Lemma ensure_other_key k m w o m1 w1 n :
  ensure_entity_exists k m w = (Ok (o, m1), w1) -> n <> k -> dict_get n m1 = dict_get n m.
Proof.
  intros H Hn. destruct (ensure_result _ _ _ _ _ _ H) as [->|(r & id & _ & _ & ->)];
    [reflexivity|].
  rewrite dict_get_set. apply String.eqb_neq in Hn. rewrite Hn. reflexivity.
Qed.

Lemma ensure_keeps_created k m w o m1 w1 n :
  ensure_entity_exists k m w = (Ok (o, m1), w1) ->
  action_of n m = Some "created" -> action_of n m1 = Some "created".
Proof.
  intros H Hn. destruct (ensure_result _ _ _ _ _ _ H) as [->|(r & id & _ & _ & ->)];
    [exact Hn|].
  unfold action_of in *. rewrite dict_get_set.
  destruct (String.eqb n k); [reflexivity|exact Hn].
Qed.

Lemma prematerialize_keeps_created ks m w m1 w1 n :
  prematerialize ks m w = (Ok m1, w1) ->
  action_of n m = Some "created" -> action_of n m1 = Some "created".
Proof.
  revert m w. induction ks as [|k ks IH]; intros m w H Hn; simpl in H.
  - injection H as <- _. exact Hn.
  - destruct (dict_get k m) as [r|]; [|exact (IH _ _ H Hn)].
    destruct (String.eqb (r_action r) "create_new" && negb (truthy (r_existing_id r)));
      [|exact (IH _ _ H Hn)].
    unfold bind in H.
    destruct (ensure_entity_exists k m w) as [[[o m2]|e] w2] eqn:E; [|discriminate].
    exact (IH _ _ H (ensure_keeps_created _ _ _ _ _ _ _ E Hn)).
Qed.

Lemma prematerialize_creates ks m w m1 w1 n r label lo hi :
  In n ks -> dict_get n m = Some r -> r_action r = "create_new" ->
  truthy (r_existing_id r) = false ->
  label_of_type (em_entity_type (r_entity r)) = Some (label, lo, hi) ->
  valid_len lo hi (em_name (r_entity r)) = true ->
  creates_succeed (store w) ->
  prematerialize ks m w = (Ok m1, w1) -> action_of n m1 = Some "created".
Proof.
  intros Hin Hk Ha Hid Hl Hlen. revert m w Hk. induction ks as [|k ks IH];
    intros m w Hk Hok H; [contradiction|]. simpl in H.
  destruct (String.string_dec k n) as [<-|Hne].
  - rewrite Hk, Ha, Hid in H. simpl in H. unfold bind in H.
    assert (E : ensure_entity_exists k m w =
                (Ok (Some (uuid_of (next_uuid (store_log (CCreate label (em_name (r_entity r))) (store w)))),
                     dict_set k (set_created (uuid_of (next_uuid (store_log (CCreate label (em_name (r_entity r))) (store w)))) r) m),
                 snd (ensure_entity_exists k m w))).
    { unfold ensure_entity_exists. rewrite Hk, Ha. cbn -[create_entity_and_update_resolution].
      rewrite Hid, create_entity_spec, Hl, Hlen. cbn - [uuid_of]. rewrite Hok. reflexivity. }
    rewrite E in H. cbn [snd] in H.
    apply (prematerialize_keeps_created _ _ _ _ _ _ H).
    unfold action_of. rewrite dict_get_set, String.eqb_refl. reflexivity.
  - destruct Hin as [Heq|Hin]; [contradiction|].
    destruct (dict_get k m) as [r'|]; [|exact (IH Hin _ _ Hk Hok H)].
    destruct (String.eqb (r_action r') "create_new" && negb (truthy (r_existing_id r')));
      [|exact (IH Hin _ _ Hk Hok H)].
    unfold bind in H.
    destruct (ensure_entity_exists k m w) as [[[o m2]|e] w2] eqn:E; [|discriminate].
    cbn [snd] in H. apply (IH Hin m2 w2).
    + rewrite (ensure_other_key _ _ _ _ _ _ _ E (not_eq_sym Hne)). exact Hk.
    + intros l x. rewrite (footprint_fault _ _ _ _ _ (fp_any_ensure k m) E). apply Hok.
    + exact H.
Qed.

Lemma validate_each_drops_created rels m w vs m1 w1 n :
  validate_each rels m w = (Ok (vs, m1), w1) -> action_of n m = Some "created" ->
  action_of n m1 = Some "created" /\
  Forall (fun v => v_from_entity v <> n /\ v_to_entity v <> n) vs.
Proof.
  revert m w vs m1 w1.
  induction rels as [|rel rels IH]; intros m w vs m1 w1 H Hn; simpl in H.
  - injection H as <- <- _. auto.
  - destruct (dict_get (rm_from_entity rel) m) as [rf|] eqn:Hf; [|exact (IH _ _ _ _ _ H Hn)].
    destruct (dict_get (rm_to_entity rel) m) as [rt|] eqn:Ht; [|exact (IH _ _ _ _ _ H Hn)].
    unfold bind in H.
    destruct (ensure_entity_exists (rm_from_entity rel) m w) as [[[o1 m2]|e] w2] eqn:E1;
      [|discriminate].
    cbn [fst snd] in H.
    destruct (ensure_entity_exists (rm_to_entity rel) m2 w2) as [[[o2 m3]|e] w3] eqn:E2;
      [|discriminate].
    cbn [fst snd] in H.
    pose proof (ensure_keeps_created _ _ _ _ _ _ _ E1 Hn) as Hn2.
    pose proof (ensure_keeps_created _ _ _ _ _ _ _ E2 Hn2) as Hn3.
    assert (Hnone : forall k mk wk o mk' wk', action_of n mk = Some "created" ->
              ensure_entity_exists k mk wk = (Ok (o, mk'), wk') -> k = n -> o = None).
    { intros k mk wk o mk' wk' Hc E ->. unfold action_of in Hc.
      destruct (dict_get n mk) as [rn|] eqn:Hrn; [|discriminate]. injection Hc as Hc.
      rewrite (ensure_created_noop _ _ wk _ Hrn Hc) in E. injection E as <- _ _. reflexivity. }
    destruct o1 as [from_id|]; [|exact (IH _ _ _ _ _ H Hn3)].
    destruct o2 as [to_id|]; [|exact (IH _ _ _ _ _ H Hn3)].
    destruct (negb (String.eqb from_id "") && negb (String.eqb to_id "")); [|exact (IH _ _ _ _ _ H Hn3)].
    destruct (validate_each rels m3 w3) as [[[vs' m4]|e] w4] eqn:E3; [|discriminate].
    destruct (IH _ _ _ _ _ E3 Hn3) as [Hn4 Hall].
    unfold ret in H. injection H as <- <- _.
    split; [exact Hn4|]. constructor; [|exact Hall]. simpl. split.
    + intro Heq. discriminate (Hnone _ _ _ _ _ _ Hn E1 Heq).
    + intro Heq. discriminate (Hnone _ _ _ _ _ _ Hn2 E2 Heq).
Qed.

(** [_validate_relationships]: its first loop creates every [create_new]
    entity without an id and marks its resolution "created"; its second
    loop then gets no id for a "created" resolution from
    [_ensure_entity_exists] and skips the relationship. So when such an
    entity (of a known type, with a name that passes the length check) is
    created, no validated relationship has it at either end, and its
    resolution is left "created". *)
Theorem validate_drops_created_entities (rels : list RelationshipMention) (m : ResMap)
    (w w' : World) (vs : list ValidatedRelationship) (m' : ResMap)
    (n : string) (r : Resolution) (label : string) (lo hi : nat)
    (Hk : dict_get n m = Some r) (Ha : r_action r = "create_new")
    (Hid : truthy (r_existing_id r) = false)
    (Hl : label_of_type (em_entity_type (r_entity r)) = Some (label, lo, hi))
    (Hlen : valid_len lo hi (em_name (r_entity r)) = true)
    (Hok : creates_succeed (store w))
    (Hv : validate_relationships rels m w = (Ok (vs, m'), w')) :
  action_of n m' = Some "created" /\
  Forall (fun v => v_from_entity v <> n /\ v_to_entity v <> n) vs.
Proof.
  revert Hv. unfold validate_relationships, bind.
  destruct (prematerialize (map fst m) m w) as [[m1|e] w1] eqn:Ep; [|discriminate].
  intro Hv. apply (validate_each_drops_created _ _ _ _ _ _ _ Hv).
  exact (prematerialize_creates _ _ _ _ _ _ _ _ _ _ (dict_get_in _ _ _ Hk) Hk Ha Hid Hl Hlen Hok Ep).
Qed.

Lemma validate_drops_created_entities_witness :
  let R := validate_relationships [fx_rel "Alice" "Bob" "KNOWS" None []] fx_new_bob_map
             (fx_alice_only no_fault) in
  let p := ok_or ([], []) (fst R) in
  R = (Ok (fst p, snd p), snd R) /\ fst p = [] /\
  action_of "Bob" (snd p) = Some "created" /\
  Forall (fun v => v_from_entity v <> "Bob" /\ v_to_entity v <> "Bob") (fst p).
Proof.
  intros R p. assert (H : R = (Ok (fst p, snd p), snd R)) by (vm_compute; reflexivity).
  split; [exact H|]. split; [vm_compute; reflexivity|].
  exact (validate_drops_created_entities _ fx_new_bob_map (fx_alice_only no_fault) _ _ _ "Bob"
           (mkResolution "create_new" (fx_entity "Bob" "person") None (Some conf09) None)
           "Person" 1 200 eq_refl eq_refl eq_refl eq_refl eq_refl
           (fun _ _ => eq_refl) H).
Defined.

(** ** The commit stage never raises *)

Lemma ce_relationships_report_entities m c :
  ce_relationships (report_entities m c) = ce_relationships c.
Proof.
  revert c; induction m as [|[k r] m IH]; intro c; simpl; [reflexivity|].
  rewrite IH. destruct c. unfold report_entity.
  repeat (destruct (String.eqb _ _)); reflexivity.
Qed.

(** Whether the store call of a relationship raises depends only on which
    calls of the store raise. *)
Lemma link_raises_fault rel w1 w2 :
  fault (store w1) = fault (store w2) -> link_raises rel w1 = link_raises rel w2.
Proof.
  intro Hf. unfold link_raises, link_relationship, link_person_to_company,
    create_person_relationship, link_person_to_topic, link_person_to_event, link,
    store_call, bind, get_world, ret.
  repeat match goal with
  | |- context [if String.eqb ?a ?b then _ else _] => destruct (String.eqb a b)
  end; simpl; rewrite ?Hf; try reflexivity;
  destruct (fault (store w2) _); simpl; try reflexivity;
  repeat match goal with
  | |- context [if ?b then _ else _] =>
      lazymatch type of b with bool => destruct b end
  end; reflexivity.
Qed.

Lemma commit_each_exact rels c w :
  exists c' w', commit_each rels c w = (Ok c', w') /\
    ce_relationships c' =
      ce_relationships c ++ map rel_entry (filter (fun rel => negb (link_raises rel w)) rels).
Proof.
  revert c w; induction rels as [|rel rels IH]; intros c w; simpl.
  - exists c, w. rewrite app_nil_r. split; reflexivity.
  - unfold bind at 1, try_except.
    destruct (bind (link_relationship rel) (fun _ => ret (report_relationship
                (mkRelReportEntry (v_from_entity rel) (v_to_entity rel)
                   (v_relationship_type rel) "created") c)) w) as [[c1|e] w1] eqn:E;
    unfold bind in E;
    destruct (link_relationship rel w) as [[u|e'] w0] eqn:El; try discriminate;
    pose proof (footprint_fault _ _ _ _ _ (fp_link_relationship rel) El) as Hfw;
    assert (Hf : filter (fun r => negb (link_raises r w0)) rels =
                 filter (fun r => negb (link_raises r w)) rels)
      by (apply filter_ext; intro r; rewrite (link_raises_fault r w0 w Hfw); reflexivity);
    unfold link_raises at 1; rewrite El; simpl.
    + unfold ret in E. injection E as <- <-.
      destruct (IH (report_relationship (rel_entry rel) c) w0) as (c' & w' & Hrun & Hrel).
      exists c', w'. split; [exact Hrun|].
      rewrite Hrel, Hf. destruct c; simpl. rewrite <- app_assoc. reflexivity.
    + injection E as <- <-.
      destruct (IH c w0) as (c' & w' & Hrun & Hrel).
      exists c', w'. split; [exact Hrun|]. rewrite Hrel, Hf. reflexivity.
Qed.

(** [_create_graph_entities] never raises: each relationship's store call
    sits in its own [try]. The relationships it reports are exactly the
    validated ones whose store call did not raise, in order. (Whether a
    call raises depends only on which calls of the store raise, which the
    run does not change, so it is read off the starting world.) *)
Theorem create_graph_entities_total (m : ResMap) (vs : list ValidatedRelationship) (w : World) :
  exists c w', create_graph_entities m vs w = (Ok c, w') /\
    ce_relationships c = map rel_entry (filter (fun rel => negb (link_raises rel w)) vs).
Proof.
  unfold create_graph_entities.
  destruct (commit_each_exact vs (report_entities m empty_created) w)
    as (c & w' & Hrun & Hrel).
  rewrite ce_relationships_report_entities in Hrel. simpl in Hrel.
  exists c, w'. auto.
Qed.

Lemma create_graph_entities_total_witness :
  let w := mkWorld (fx_store [fx_person "p1" "Alice"; fx_person "p2" "Bob";
                              ("Topic", mkNode "t1" "AI" None)] knows_fault)
                   (fx_service "Alice" (Some "p1") None) in
  map (fun rel => link_raises rel w) fx_two_rels = [true; false] /\
  exists c w', create_graph_entities [] fx_two_rels w = (Ok c, w') /\
    ce_relationships c = [mkRelReportEntry "Alice" "AI" "INTERESTED_IN" "created"].
Proof.
  intro w. split; [vm_compute; reflexivity|].
  destruct (create_graph_entities_total [] fx_two_rels w) as (c & w' & H & Hr).
  exists c, w'. split; [exact H|]. rewrite Hr. vm_compute. reflexivity.
Defined.

(** ** The AI router *)

Lemma fp_any_parse_analysis raw : footprint (fun _ => True) (parse_analysis raw).
Proof. unfold parse_analysis, create_fallback_analysis. fp_step. Qed.

Lemma process_note_keeps_id note w r w' :
  truthy (main_person_id (svc w)) = true ->
  process_note_advanced note w = (Ok r, w') ->
  pr_main_person_id r = main_person_id (svc w) /\ svc w' = svc w.
Proof.
  intros Ht H.
  unfold process_note_advanced, ensure_main_person_exists in H.
  unfold try_except, bind, get_svc, ret, raise in H. cbv beta iota zeta in H.
  destruct (extraction_chain (svc w)) as [chain|]; [|discriminate].
  rewrite Ht in H. cbn beta iota in H. revert H.
  destruct (parse_analysis (chain (main_person_name (svc w)) note) w)
    as [[a|e] w2] eqn:Ep; [|discriminate].
  assert (Hw2 : svc w2 = svc w) by exact (footprint_svc _ _ _ _ _ (fp_any_parse_analysis _) Ep).
  destruct (resolve_validate_commit (na_entities a) (na_relationships a) note w2)
    as [[[[m vs] c]|e] w3] eqn:Er; [|discriminate].
  assert (Hw3 : svc w3 = svc w2)
    by exact (footprint_svc _ _ _ _ _ (fp_any_resolve_validate_commit _ _ _) Er).
  intro H; injection H as <- <-. simpl. rewrite Hw3, Hw2. auto.
Qed.



(** ** The other resolvers *)

Lemma resolve_exact_spec label e w r w' :
  resolve_exact (get_by_name label) e w = (Ok r, w') ->
  r_entity r = e /\ nodes (store w') = nodes (store w) /\
  ((r_action r = "use_existing" /\
    exists n, In (label, n) (nodes (store w)) /\ n_name n = em_name e /\
              r_existing_id r = Some (n_id n)) \/
   (r_action r = "create_new" /\ r_existing_id r = None)).
Proof.
  unfold resolve_exact, get_by_name, store_call, bind. simpl.
  destruct (fault (store w) (CGetByName label (em_name e))); [discriminate|].
  destruct (find_by_name label (em_name e) (nodes (store w))) as [n|] eqn:Ef;
    unfold ret; intro H; injection H as <- <-; simpl.
  - destruct (find_by_name_in _ _ _ _ Ef) as [Hin Hn].
    split; [reflexivity|]. split; [reflexivity|]. left. split; [reflexivity|]. eauto.
  - split; [reflexivity|]. split; [reflexivity|]. right. auto.
Qed.

(** [_resolve_ambiguous_entities] on an entity that is not a person: a
    known type is resolved by an exact name lookup under its node label, so
    a [use_existing] resolution carries the id of a node with that label and
    the entity's exact name, and any other resolution is [create_new]
    without an id; an unknown type gets [create_new] without id or
    confidence, and no store call. The store's nodes are never changed. *)
Theorem resolve_entity_non_person (e : EntityMention) (note : string) (w w' : World)
    (r : Resolution) (Ht : em_entity_type e <> "person")
    (Hrun : resolve_entity e note w = (Ok r, w')) :
  r_entity r = e /\ nodes (store w') = nodes (store w) /\
  match label_of_type (em_entity_type e) with
  | Some (label, _, _) =>
      (r_action r = "use_existing" /\
       exists n, In (label, n) (nodes (store w)) /\ n_name n = em_name e /\
                 r_existing_id r = Some (n_id n)) \/
      (r_action r = "create_new" /\ r_existing_id r = None)
  | None => r = mkResolution "create_new" e None None None /\ w' = w
  end.
Proof.
  revert Hrun. unfold resolve_entity, label_of_type.
  apply String.eqb_neq in Ht. rewrite Ht.
  unfold resolve_company_entity, resolve_topic_entity, resolve_event_entity,
    resolve_location_entity, get_company_by_name, get_topic_by_name,
    get_event_by_name, get_location_by_city.
  destruct (String.eqb (em_entity_type e) "company"); [apply resolve_exact_spec|].
  destruct (String.eqb (em_entity_type e) "topic"); [apply resolve_exact_spec|].
  destruct (String.eqb (em_entity_type e) "event"); [apply resolve_exact_spec|].
  destruct (String.eqb (em_entity_type e) "location"); [apply resolve_exact_spec|].
  unfold ret. intro H; injection H as <- <-. auto.
Qed.

(** ** When ensure-exists raises *)

Lemma create_entity_not_err key r m w e w' :
  create_entity_and_update_resolution key r m w <> (Err e, w').
Proof.
  rewrite create_entity_spec.
  destruct (label_of_type (em_entity_type (r_entity r))) as [[[label lo] hi]|];
    [|discriminate].
  destruct (valid_len lo hi (em_name (r_entity r))); [|discriminate].
  simpl. destruct (fault _ _); discriminate.
Qed.

Lemma create_entity_fail key r m w :
  (forall l n, fault (store w) (CCreate l n) = true) ->
  exists w1, create_entity_and_update_resolution key r m w = (Ok (None, m), w1) /\
    nodes (store w1) = nodes (store w).
Proof.
  intro Hc. rewrite create_entity_spec.
  destruct (label_of_type (em_entity_type (r_entity r))) as [[[label lo] hi]|];
    [|eauto].
  destruct (valid_len lo hi (em_name (r_entity r))); [|eauto].
  simpl. rewrite Hc. eauto.
Qed.


(** ** Relationships reported without an edge *)

Lemma link_relationship_missing v w :
  (forall l a b, fault (store w) (CLink l a b) = false) ->
  (let t := v_relationship_type v in
   let a := v_from_id v in let b := v_to_id v in let ns := nodes (store w) in
   (t = "WORKS_AT" /\ node_exists "Person" a ns && node_exists "Company" b ns = false) \/
   (t = "KNOWS" /\ node_exists "Person" a ns && node_exists "Person" b ns = false) \/
   (t = "INTERESTED_IN" /\ node_exists "Person" a ns && node_exists "Topic" b ns = false) \/
   (t = "ATTENDED" /\ node_exists "Person" a ns && node_exists "Event" b ns = false)) ->
  exists w', link_relationship v w = (Ok tt, w') /\
    nodes (store w') = nodes (store w) /\ edges (store w') = edges (store w).
Proof.
  intros Hf Hmiss. cbv zeta in Hmiss.
  unfold link_relationship, link_person_to_company, create_person_relationship,
    link_person_to_topic, link_person_to_event, link, store_call, bind, get_world, ret.
  destruct Hmiss as [[Ht Hn]|[[Ht Hn]|[[Ht Hn]|[Ht Hn]]]]; rewrite Ht; cbn -[node_exists];
    rewrite Hf, Hn; eexists; (split; [reflexivity|split; reflexivity]).
Qed.

(** [_create_graph_entities] ignores the boolean the store's link functions
    return: a relationship of a known type whose endpoints are not both
    found under the labels its store function matches ([Person] and
    [Company] for [WORKS_AT], two [Person] nodes for [KNOWS], [Person] and
    [Topic] for [INTERESTED_IN], [Person] and [Event] for [ATTENDED]) writes
    no edge, yet is reported with action "created". *)
Theorem commit_reports_without_edge (m : ResMap) (v : ValidatedRelationship) (w : World)
    (Hf : forall l a b, fault (store w) (CLink l a b) = false)
    (Hmiss : let t := v_relationship_type v in
             let a := v_from_id v in let b := v_to_id v in let ns := nodes (store w) in
             (t = "WORKS_AT" /\ node_exists "Person" a ns && node_exists "Company" b ns = false) \/
             (t = "KNOWS" /\ node_exists "Person" a ns && node_exists "Person" b ns = false) \/
             (t = "INTERESTED_IN" /\ node_exists "Person" a ns && node_exists "Topic" b ns = false) \/
             (t = "ATTENDED" /\ node_exists "Person" a ns && node_exists "Event" b ns = false)) :
  exists c w', create_graph_entities m [v] w = (Ok c, w') /\
    ce_relationships c = [rel_entry v] /\
    nodes (store w') = nodes (store w) /\ edges (store w') = edges (store w).
Proof.
  destruct (link_relationship_missing v w Hf Hmiss) as (w1 & E & Hn & He).
  unfold create_graph_entities. simpl. unfold bind at 1, try_except, bind at 1.
  rewrite E. unfold ret.
  eexists; eexists. split; [reflexivity|]. split; [|auto].
  pose proof (ce_relationships_report_entities m empty_created) as Hr.
  destruct (report_entities m empty_created); simpl in *; subst; reflexivity.
Qed.

Lemma resolve_entity_non_person_witness :
  let R := resolve_entity (fx_entity "Acme" "company") "" fx_acme_world in
  let r := ok_or (main_person_resolution (svc fx_acme_world)) (fst R) in
  R = (Ok r, snd R) /\ r_existing_id r = Some "c1" /\
  r_entity r = fx_entity "Acme" "company" /\ nodes (store (snd R)) = nodes (store fx_acme_world) /\
  ((r_action r = "use_existing" /\
    exists n, In ("Company", n) (nodes (store fx_acme_world)) /\ n_name n = "Acme" /\
              r_existing_id r = Some (n_id n)) \/
   (r_action r = "create_new" /\ r_existing_id r = None)).
Proof.
  intros R r. assert (H : R = (Ok r, snd R)) by (vm_compute; reflexivity).
  split; [exact H|]. split; [vm_compute; reflexivity|].
  exact (resolve_entity_non_person (fx_entity "Acme" "company") "" fx_acme_world _ _
           ltac:(discriminate) H).
Defined.


Lemma commit_reports_without_edge_witness :
  exists c w', create_graph_entities [] [fx_interest_acme] fx_alice_acme_world = (Ok c, w') /\
    ce_relationships c = [rel_entry fx_interest_acme] /\
    nodes (store w') = nodes (store fx_alice_acme_world) /\
    edges (store w') = edges (store fx_alice_acme_world).
Proof.
  apply (commit_reports_without_edge [] fx_interest_acme fx_alice_acme_world).
  - intros l a b. reflexivity.
  - right. right. left. split; reflexivity.
Defined.
